(** * The particle-filter localizer of cs393r_starter: a shallow embedding

    Source: [src/particle_filter/particle_filter.cc].

    The C++ code computes on [float]s.  The embedding is written once over an
    interface [Scalar] of the arithmetic the code uses, and is run at two
    instances:

    - [exact_scalar]: exact rational arithmetic ([Q]); the libm functions
      ([sqrt], [exp], [cos], [sin]) are parameters;
    - [binary32_scalar]: IEEE-754 single precision, round to nearest even
      (the Standard Library's [SpecFloat] with precision 24 and maximal
      exponent 128), with infinities, signed zeros and NaN; [exp], [cos]
      and [sin] are parameters.

    Control-flow properties are proved for every instance.  Properties that
    need the laws of arithmetic are proved for [exact_scalar]; properties
    about infinities are proved for [binary32_scalar].  The model does not
    distinguish the places where C++ promotes a [float] to [double].

    Undefined behaviour (an index past the end of a vector, an integer
    division by zero) and a loop that has not finished within the given
    fuel are [None]. *)

From Stdlib Require Import List ZArith QArith Qabs Bool Lia Lra Psatz.
From Stdlib Require Import Floats.SpecFloat.
Import ListNotations.

Set Implicit Arguments.
Local Open Scope bool_scope.
Local Close Scope Q_scope.

(** ** The arithmetic interface *)

(** The operations on [float] that the filter uses.  [lit q] is the scalar a
    decimal literal or a converted integer denotes; [ltb] and [eqb] are the
    C++ comparisons [<] and [==]. *)
Class Scalar (F : Type) : Type := {
  lit : Q -> F;
  add : F -> F -> F;
  sub : F -> F -> F;
  mul : F -> F -> F;
  div : F -> F -> F;
  opp : F -> F;
  fabs : F -> F;
  ltb : F -> F -> bool;
  eqb : F -> F -> bool;
  fsqrt : F -> F;
  fexp : F -> F;
  fcos : F -> F;
  fsin : F -> F
}.

(** [-std::numeric_limits<float>::infinity()]. *)
Class Infinity (F : Type) : Type := {
  neg_infinity : F
}.

(** [Eigen::Vector2f] and [geometry::line2f]. *)
Record Vector2f (F : Type) : Type := Vec2 { vx : F; vy : F }.

Record line2f (F : Type) : Type := Line2 { p0 : Vector2f F; p1 : Vector2f F }.

(** [struct Particle] of particle_filter.h. *)
Record Particle (F : Type) : Type := mkParticle {
  loc : Vector2f F;
  angle : F;
  log_weight : F
}.

(** What the filter takes from the shared library and is not part of the
    repository's sources: [math_util::AngleDiff], [line2f::Intersection]
    and the random source [util_random::Random]. *)
Class Externals (F : Type) : Type := {
  AngleDiff : F -> F -> F;
  Intersection : line2f F -> line2f F -> option (Vector2f F);
  Random : Type;
  UniformRandom : F -> F -> Random -> F * Random;
  Gaussian : F -> F -> Random -> F * Random
}.

(** The [ParticleFilter] object together with the two file-scope variables
    [updates_since_last_resample_] and [last_update_loc_]. *)
Record FilterState (F : Type) (E : Externals F) : Type := mkFilter {
  particles_ : list (Particle F);
  prev_odom_loc_ : Vector2f F;
  prev_odom_angle_ : F;
  odom_initialized_ : bool;
  init_offset_angle_ : F;
  max_log_particle_weight_ : F;
  rng_ : Random;
  map_ : list (line2f F);
  var_obs_ : F;
  d_short_ : F;
  d_long_ : F;
  updates_since_last_resample_ : Z;
  last_update_loc_ : Vector2f F
}.

(** Sequencing of steps that can fail. *)
Notation "'do' x <- e ; k" :=
  (match e with Some x => k | None => None end)
  (at level 10, x pattern, e at level 100, k at level 200).

Section Filter.

Context {F : Type} {SC : Scalar F} {E : Externals F}.

Let State : Type := FilterState E.

(** The value of [FLAGS_num_particles]. *)
Variable FLAGS_num_particles : nat.

Definition zero : F := lit 0.
Definition one : F := lit 1.
Definition of_nat (n : nat) : F := lit (inject_Z (Z.of_nat n)).

(** [std::min] and [std::max]. *)
Definition fmin (a b : F) : F := if ltb b a then b else a.
Definition fmax (a b : F) : F := if ltb a b then b else a.

(** [math_util::Sq]. *)
Definition Sq (a : F) : F := mul a a.

(** *** Eigen's vector operations *)

Definition vadd (a b : Vector2f F) : Vector2f F :=
  Vec2 (add (vx a) (vx b)) (add (vy a) (vy b)).
Definition vsub (a b : Vector2f F) : Vector2f F :=
  Vec2 (sub (vx a) (vx b)) (sub (vy a) (vy b)).
Definition vscale (k : F) (a : Vector2f F) : Vector2f F :=
  Vec2 (mul k (vx a)) (mul k (vy a)).
Definition vtimes (a : Vector2f F) (k : F) : Vector2f F :=
  Vec2 (mul (vx a) k) (mul (vy a) k).
Definition vdiv (a : Vector2f F) (k : F) : Vector2f F :=
  Vec2 (div (vx a) k) (div (vy a) k).
Definition norm (a : Vector2f F) : F :=
  fsqrt (add (mul (vx a) (vx a)) (mul (vy a) (vy a))).
(** [Eigen::Rotation2Df(theta) * v]. *)
Definition rotate (theta : F) (v : Vector2f F) : Vector2f F :=
  Vec2 (sub (mul (fcos theta) (vx v)) (mul (fsin theta) (vy v)))
       (add (mul (fsin theta) (vx v)) (mul (fcos theta) (vy v))).

(** *** Field updates *)

Definition set_log_weight (p : Particle F) (w : F) : Particle F :=
  mkParticle (loc p) (angle p) w.

Definition set_particles (st : State) (ps : list (Particle F)) : State :=
  mkFilter E ps (prev_odom_loc_ st) (prev_odom_angle_ st)
    (odom_initialized_ st) (init_offset_angle_ st)
    (max_log_particle_weight_ st) (rng_ st) (map_ st) (var_obs_ st)
    (d_short_ st) (d_long_ st) (updates_since_last_resample_ st)
    (last_update_loc_ st).

Definition set_prev_odom (st : State) (l : Vector2f F) (a : F) : State :=
  mkFilter E (particles_ st) l a
    (odom_initialized_ st) (init_offset_angle_ st)
    (max_log_particle_weight_ st) (rng_ st) (map_ st) (var_obs_ st)
    (d_short_ st) (d_long_ st) (updates_since_last_resample_ st)
    (last_update_loc_ st).

Definition set_odom_initialized (st : State) (b : bool) : State :=
  mkFilter E (particles_ st) (prev_odom_loc_ st) (prev_odom_angle_ st)
    b (init_offset_angle_ st)
    (max_log_particle_weight_ st) (rng_ st) (map_ st) (var_obs_ st)
    (d_short_ st) (d_long_ st) (updates_since_last_resample_ st)
    (last_update_loc_ st).

Definition set_init_offset_angle (st : State) (a : F) : State :=
  mkFilter E (particles_ st) (prev_odom_loc_ st) (prev_odom_angle_ st)
    (odom_initialized_ st) a
    (max_log_particle_weight_ st) (rng_ st) (map_ st) (var_obs_ st)
    (d_short_ st) (d_long_ st) (updates_since_last_resample_ st)
    (last_update_loc_ st).

Definition set_max_log_particle_weight (st : State) (w : F) : State :=
  mkFilter E (particles_ st) (prev_odom_loc_ st) (prev_odom_angle_ st)
    (odom_initialized_ st) (init_offset_angle_ st)
    w (rng_ st) (map_ st) (var_obs_ st)
    (d_short_ st) (d_long_ st) (updates_since_last_resample_ st)
    (last_update_loc_ st).

Definition set_rng (st : State) (r : Random) : State :=
  mkFilter E (particles_ st) (prev_odom_loc_ st) (prev_odom_angle_ st)
    (odom_initialized_ st) (init_offset_angle_ st)
    (max_log_particle_weight_ st) r (map_ st) (var_obs_ st)
    (d_short_ st) (d_long_ st) (updates_since_last_resample_ st)
    (last_update_loc_ st).

Definition set_map (st : State) (m : list (line2f F)) : State :=
  mkFilter E (particles_ st) (prev_odom_loc_ st) (prev_odom_angle_ st)
    (odom_initialized_ st) (init_offset_angle_ st)
    (max_log_particle_weight_ st) (rng_ st) m (var_obs_ st)
    (d_short_ st) (d_long_ st) (updates_since_last_resample_ st)
    (last_update_loc_ st).

Definition set_updates_since_last_resample (st : State) (n : Z) : State :=
  mkFilter E (particles_ st) (prev_odom_loc_ st) (prev_odom_angle_ st)
    (odom_initialized_ st) (init_offset_angle_ st)
    (max_log_particle_weight_ st) (rng_ st) (map_ st) (var_obs_ st)
    (d_short_ st) (d_long_ st) n
    (last_update_loc_ st).

Definition set_last_update_loc (st : State) (l : Vector2f F) : State :=
  mkFilter E (particles_ st) (prev_odom_loc_ st) (prev_odom_angle_ st)
    (odom_initialized_ st) (init_offset_angle_ st)
    (max_log_particle_weight_ st) (rng_ st) (map_ st) (var_obs_ st)
    (d_short_ st) (d_long_ st) (updates_since_last_resample_ st)
    l.

(** *** [ParticleFilter::ParticleFilter] *)

(** The constructor sets the odometry baseline and the three parameters of
    the sensor model.  The particle vector and the map start empty; [rng] is
    the random source as constructed; [init_offset_angle_] and
    [max_log_particle_weight_] are not initialized, their values are
    arguments here.  The file-scope variables start at 0 and (0, 0). *)
Definition ParticleFilter_new (rng : Random) (init_offset max_log : F)
    : State :=
  mkFilter E [] (Vec2 zero zero) zero false init_offset max_log rng []
    (lit 1.0) (lit 0.5) (lit 0.5) 0%Z (Vec2 zero zero).

(** *** [ParticleFilter::GetParticles] *)

Definition GetParticles (st : State) : list (Particle F) := particles_ st.

(** *** [ParticleFilter::GetPredictedPointCloud] *)

(** The position of the laser: [loc + 0.2*Vector2f(cos(angle), sin(angle))]. *)
Definition lidar_offset (l : Vector2f F) (a : F) : Vector2f F :=
  vadd l (vscale (lit 0.2) (Vec2 (fcos a) (fsin a))).

(** The inner loop over [map_.lines] for one ray: the pair
    [(dist_to_intersection_min, intersection_min)] after the lines [ls]. *)
Fixpoint closest_intersection (l : Vector2f F) (ray_line : line2f F)
    (ls : list (line2f F)) (dist_min : F) (pt_min : Vector2f F)
    : F * Vector2f F :=
  match ls with
  | [] => (dist_min, pt_min)
  | map_line :: ls' =>
      match Intersection map_line ray_line with
      | Some intersection_point =>
          let dist_to_this_intersection := norm (vsub intersection_point l) in
          if ltb dist_to_this_intersection dist_min
          then closest_intersection l ray_line ls'
                 dist_to_this_intersection intersection_point
          else closest_intersection l ray_line ls' dist_min pt_min
      | None => closest_intersection l ray_line ls' dist_min pt_min
      end
  end.

(** [float ray_angle = angle + 10.0*i_scan/num_ranges*(angle_max-angle_min)
    + angle_min]. *)
Definition ray_angle_of (a : F) (i_scan num_ranges : nat)
    (angle_min angle_max : F) : F :=
  add (add a (mul (div (mul (lit 10) (of_nat i_scan)) (of_nat num_ranges))
                  (sub angle_max angle_min)))
      angle_min.

(** The point of the ray at distance [r] from the laser. *)
Definition ray_point (lidar_loc : Vector2f F) (ray_angle r : F)
    : Vector2f F :=
  Vec2 (add (vx lidar_loc) (mul r (fcos ray_angle)))
       (add (vy lidar_loc) (mul r (fsin ray_angle))).

(** [ray_line]: from [range_min] to [range_max] along the ray. *)
Definition ray_line_of (lidar_loc : Vector2f F)
    (ray_angle range_min range_max : F) : line2f F :=
  Line2 (ray_point lidar_loc ray_angle range_min)
        (ray_point lidar_loc ray_angle range_max).

(** The body of the loop over [i_scan]: the value stored in [scan[i_scan]]. *)
Definition predicted_point (lines : list (line2f F)) (l : Vector2f F) (a : F)
    (num_ranges : nat) (range_min range_max angle_min angle_max : F)
    (i_scan : nat) : Vector2f F :=
  let lidar_loc := lidar_offset l a in
  let ray_angle := ray_angle_of a i_scan num_ranges angle_min angle_max in
  let ray_line := ray_line_of lidar_loc ray_angle range_min range_max in
  let intersection_min := ray_point lidar_loc ray_angle range_max in
  snd (closest_intersection l ray_line lines range_max intersection_min).

(** [scan.resize(num_ranges/10)] and the loop over the rays. *)
Definition GetPredictedPointCloud (lines : list (line2f F)) (l : Vector2f F)
    (a : F) (num_ranges : nat) (range_min range_max angle_min angle_max : F)
    : list (Vector2f F) :=
  map (predicted_point lines l a num_ranges range_min range_max
         angle_min angle_max)
      (seq 0 (num_ranges / 10)).

(** *** [ParticleFilter::Update] *)

Fixpoint all_some {A : Type} (l : list (option A)) : option (list A) :=
  match l with
  | [] => Some []
  | None :: _ => None
  | Some a :: l' => do r <- all_some l'; Some (a :: r)
  end.

(** [trimmed_ranges[i] = ranges[ratio*i]] for [i < m]. *)
Definition trim_ranges (ranges : list F) (ratio m : nat) : option (list F) :=
  all_some (map (fun i => nth_error ranges (ratio * i)) (seq 0 m)).

(** The test that makes the loop [continue]; [measured] is the range the
    test reads. *)
Definition ray_dropped (range_min range_max predicted_range measured : F)
    : bool :=
  ltb range_max predicted_range
  || ltb predicted_range range_min
  || ltb (mul (lit 0.95) range_max) measured
  || ltb measured (mul (lit 1.05) range_min).

(** [range_diff] after [std::min(range_diff, d_long_)] and
    [std::max(range_diff, -d_short_)]. *)
Definition clamp_range_diff (st : State) (range_diff : F) : F :=
  fmax (fmin range_diff (d_long_ st)) (opp (d_short_ st)).

(** The term [-Sq(range_diff) / var_obs_] of a ray that is kept. *)
Definition ray_log_error (st : State) (measured predicted_range : F) : F :=
  div (opp (Sq (clamp_range_diff st (sub measured predicted_range))))
      (var_obs_ st).

(** The second loop of [Update], over the ray indices [idx], from the
    running value [log_error_sum]. *)
Fixpoint weight_loop (st : State) (ranges trimmed_ranges : list F)
    (predicted_cloud : list (Vector2f F)) (particle_lidar_loc : Vector2f F)
    (range_min range_max : F) (idx : list nat) (log_error_sum : F)
    : option F :=
  match idx with
  | [] => Some log_error_sum
  | i :: idx' =>
      do predicted_point <- nth_error predicted_cloud i;
      let predicted_range := norm (vsub predicted_point particle_lidar_loc) in
      do ranges_i <- nth_error ranges i;
      if ray_dropped range_min range_max predicted_range ranges_i
      then weight_loop st ranges trimmed_ranges predicted_cloud
             particle_lidar_loc range_min range_max idx' log_error_sum
      else
        do trimmed_i <- nth_error trimmed_ranges i;
        weight_loop st ranges trimmed_ranges predicted_cloud
          particle_lidar_loc range_min range_max idx'
          (add log_error_sum (ray_log_error st trimmed_i predicted_range))
  end.

Definition Update (st : State) (ranges : list F)
    (range_min range_max angle_min angle_max : F) (particle : Particle F)
    : option (Particle F) :=
  if negb (odom_initialized_ st) then Some particle
  else
    let predicted_cloud :=
      GetPredictedPointCloud (map_ st) (loc particle) (angle particle)
        (length ranges) range_min range_max angle_min angle_max in
    match length predicted_cloud with
    | O => None (* ranges.size() / predicted_cloud.size() divides by zero *)
    | S _ =>
        let ratio := (length ranges / length predicted_cloud)%nat in
        do trimmed_ranges <-
          trim_ranges ranges ratio (length predicted_cloud);
        do log_error_sum <-
          weight_loop st ranges trimmed_ranges predicted_cloud
            (lidar_offset (loc particle) (angle particle))
            range_min range_max (seq 0 (length predicted_cloud)) zero;
        Some (set_log_weight particle
                (add (log_weight particle) log_error_sum))
    end.

(** *** [ParticleFilter::Resample] *)

(** The first loop: for [i < n], [particles_[i].log_weight -=
    max_log_particle_weight_], [normalized_sum += exp(...)] and
    [absolute_weight_breakpoints[i] = normalized_sum].  The result is the
    particle vector after the loop, the breakpoints and the final sum. *)
Fixpoint normalize_weights (max_log : F) (n : nat) (ps : list (Particle F))
    (normalized_sum : F) : option (list (Particle F) * list F * F) :=
  match n with
  | O => Some (ps, [], normalized_sum)
  | S n' =>
      match ps with
      | [] => None (* particles_[i] is past the end *)
      | p :: rest =>
          let p' := set_log_weight p (sub (log_weight p) max_log) in
          let sum' := add normalized_sum (fexp (log_weight p')) in
          do (rest', breakpoints, total) <-
            normalize_weights max_log n' rest sum';
          Some (p' :: rest', sum' :: breakpoints, total)
      end
  end.

(** [while (absolute_weight_breakpoints[i] > sample_point)] for one [i]. *)
Fixpoint emit_copies (fuel : nat) (breakpoint : F) (p : Particle F)
    (sample_point division_size : F) (new_particles : list (Particle F))
    : option (list (Particle F) * F) :=
  match fuel with
  | O => None
  | S fuel' =>
      if ltb sample_point breakpoint
      then emit_copies fuel' breakpoint p (add sample_point division_size)
             division_size (new_particles ++ [p])
      else Some (new_particles, sample_point)
  end.

(** The second loop, over the breakpoints and the particles they belong to. *)
Fixpoint resample_loop (fuel : nat) (breakpoints : list F)
    (ps : list (Particle F)) (sample_point division_size : F)
    (new_particles : list (Particle F)) : option (list (Particle F)) :=
  match breakpoints, ps with
  | breakpoint :: breakpoints', p :: ps' =>
      do (new_particles', sample_point') <-
        emit_copies fuel breakpoint p sample_point division_size
          new_particles;
      resample_loop fuel breakpoints' ps' sample_point' division_size
        new_particles'
  | _, _ => Some new_particles
  end.

Definition Resample (fuel : nat) (st : State) : option State :=
  match particles_ st with
  | [] => Some st
  | _ :: _ =>
      if negb (odom_initialized_ st) then Some st
      else
        do (ps, absolute_weight_breakpoints, normalized_sum) <-
          normalize_weights (max_log_particle_weight_ st)
            FLAGS_num_particles (particles_ st) zero;
        let st1 := set_particles st ps in
        let division_size :=
          div normalized_sum (of_nat FLAGS_num_particles) in
        let '(sample_point, rng') :=
          UniformRandom zero division_size (rng_ st1) in
        let st2 := set_rng st1 rng' in
        if eqb division_size zero then Some st2
        else
          do new_particles <-
            resample_loop fuel absolute_weight_breakpoints ps
              sample_point division_size [];
          Some (set_particles (set_max_log_particle_weight st2 zero)
                  new_particles)
  end.

(** *** [ParticleFilter::ResetOdomVariables] *)

Definition ResetOdomVariables (l : Vector2f F) (a : F) (st : State) : State :=
  let st := set_init_offset_angle st (sub a (prev_odom_angle_ st)) in
  let st := set_last_update_loc st l in
  let st := set_prev_odom st l a in
  set_updates_since_last_resample st 0.

(** *** [ParticleFilter::UpdateParticleLocation] *)

(** [abs] is taken as the absolute value of a [float]. *)

Definition UpdateParticleLocation (odom_trans_diff : Vector2f F)
    (dtheta_odom : F) (particle : Particle F) (rng : Random)
    : Particle F * Random :=
  let k1 := lit 0.50 in
  let k2 := lit 0.25 in
  let k3 := lit 0.50 in
  let k4 := lit 0.75 in
  let angle_diff := dtheta_odom in
  let '(translation_noise_x, rng) :=
    Gaussian zero (add (mul k1 (norm odom_trans_diff))
                       (mul k2 (fabs angle_diff))) rng in
  let '(translation_noise_y, rng) :=
    Gaussian zero (add (mul k1 (norm odom_trans_diff))
                       (mul k2 (fabs angle_diff))) rng in
  let '(rotation_noise, rng) :=
    Gaussian zero (add (mul k3 (norm odom_trans_diff))
                       (mul k4 (fabs angle_diff))) rng in
  (mkParticle
     (vadd (loc particle)
           (vadd odom_trans_diff
                 (Vec2 translation_noise_x translation_noise_y)))
     (add (angle particle) (add dtheta_odom rotation_noise))
     (log_weight particle),
   rng).

(** *** [ParticleFilter::ObserveOdometry] *)

(** The loop [for (auto &particle : particles_)] of the propagating branch. *)
Fixpoint propagate (odom_trans_diff : Vector2f F)
    (prev_odom_angle angle_diff : F) (ps : list (Particle F)) (rng : Random)
    : list (Particle F) * Random :=
  match ps with
  | [] => ([], rng)
  | particle :: ps' =>
      let map_trans_diff :=
        rotate (AngleDiff (angle particle) prev_odom_angle)
               odom_trans_diff in
      let '(particle', rng) :=
        UpdateParticleLocation map_trans_diff angle_diff particle rng in
      let '(ps'', rng) :=
        propagate odom_trans_diff prev_odom_angle angle_diff ps' rng in
      (particle' :: ps'', rng)
  end.

(** The test of [ObserveOdometry]: [odom_initialized_ and
    odom_trans_diff.norm() < 1.0]. *)
Definition odom_gate (odom_loc : Vector2f F) (st : State) : bool :=
  odom_initialized_ st
  && ltb (norm (vsub odom_loc (prev_odom_loc_ st))) (lit 1.0).

(** The message printed when the angle changes by more than [M_2PI] has no
    effect on the state and is left out. *)
Definition ObserveOdometry (odom_loc : Vector2f F) (odom_angle : F)
    (st : State) : State :=
  let odom_trans_diff := vsub odom_loc (prev_odom_loc_ st) in
  if odom_gate odom_loc st
  then
    let angle_diff := AngleDiff odom_angle (prev_odom_angle_ st) in
    let '(ps, rng) :=
      propagate odom_trans_diff (prev_odom_angle_ st) angle_diff
        (particles_ st) (rng_ st) in
    set_prev_odom (set_rng (set_particles st ps) rng) odom_loc odom_angle
  else
    set_odom_initialized (ResetOdomVariables odom_loc odom_angle st) true.

(** *** [ParticleFilter::Initialize] *)

(** The loop that draws the initial particles. *)
Fixpoint init_particles (n : nat) (l : Vector2f F) (a : F)
    (ps : list (Particle F)) (rng : Random) : list (Particle F) * Random :=
  match n with
  | O => (ps, rng)
  | S n' =>
      let '(x, rng) := Gaussian (vx l) (lit 0.25) rng in
      let '(y, rng) := Gaussian (vy l) (lit 0.25) rng in
      let '(th, rng) :=
        Gaussian a (div (lit 3.14159265358979323846) (lit 6)) rng in
      init_particles n' l a (ps ++ [mkParticle (Vec2 x y) th zero]) rng
  end.

(** [loaded] is what [map_.Load("maps/" + map_file + ".txt")] read. *)
Definition Initialize (loaded : list (line2f F)) (l : Vector2f F) (a : F)
    (st : State) : State :=
  let st := set_particles st [] in
  let st := set_map st loaded in
  let st := set_odom_initialized st false in
  let st := ResetOdomVariables l a st in
  let '(ps, rng) :=
    init_particles FLAGS_num_particles l a (particles_ st) (rng_ st) in
  set_rng (set_particles st ps) rng.

(** *** [ParticleFilter::GetLocation] *)

(** [exp(particle.log_weight - max_log_particle_weight_)]. *)
Definition normalized_weight (st : State) (particle : Particle F) : F :=
  fexp (sub (log_weight particle) (max_log_particle_weight_ st)).

(** The loop of [GetLocation]: the three running sums. *)
Fixpoint weighted_sums (st : State) (ps : list (Particle F))
    (weighted_loc_sum : Vector2f F) (weighted_angle_sum weight_sum : F)
    : Vector2f F * F * F :=
  match ps with
  | [] => (weighted_loc_sum, weighted_angle_sum, weight_sum)
  | particle :: ps' =>
      let w := normalized_weight st particle in
      weighted_sums st ps'
        (vadd weighted_loc_sum (vtimes (loc particle) w))
        (add weighted_angle_sum (mul (angle particle) w))
        (add weight_sum w)
  end.

Definition GetLocation (st : State) : Vector2f F * F :=
  let '(weighted_loc_sum, weighted_angle_sum, weight_sum) :=
    weighted_sums st (particles_ st) (Vec2 zero zero) zero zero in
  (vdiv weighted_loc_sum weight_sum, div weighted_angle_sum weight_sum).

(** *** [ParticleFilter::Map2BaseLink] and [ParticleFilter::OdomVec2Map] *)

Definition Map2BaseLink (point l : Vector2f F) (a : F) : Vector2f F :=
  vsub (rotate (opp a) (vsub point l)) (Vec2 (lit 0.2) zero).

Definition OdomVec2Map (st : State) (odom_vec : Vector2f F) : Vector2f F :=
  rotate (init_offset_angle_ st) odom_vec.

(** *** [ParticleFilter::ObserveLaser] *)

Context {INF : Infinity F}.

(** The loop [for (auto &particle : particles_)]: every particle is updated
    and the running maximum of the log-weights is kept. *)
Fixpoint update_all (st : State) (ranges : list F)
    (range_min range_max angle_min angle_max : F) (ps : list (Particle F))
    (max_log : F) : option (list (Particle F) * F) :=
  match ps with
  | [] => Some ([], max_log)
  | particle :: ps' =>
      do particle' <-
        Update st ranges range_min range_max angle_min angle_max particle;
      let max_log' :=
        if ltb max_log (log_weight particle') then log_weight particle'
        else max_log in
      do (ps'', m) <-
        update_all st ranges range_min range_max angle_min angle_max ps'
          max_log';
      Some (particle' :: ps'', m)
  end.

(** [dist_since_last_update > 0.1 and dist_since_last_update < 1.0]. *)
Definition motion_gate (st : State) : bool :=
  let dist_since_last_update :=
    norm (vsub (prev_odom_loc_ st) (last_update_loc_ st)) in
  ltb (lit 0.1) dist_since_last_update
  && ltb dist_since_last_update (lit 1.0).

(** [updates_since_last_resample_ > 5]. *)
Definition resample_due (st : State) : bool :=
  (5 <? updates_since_last_resample_ st)%Z.

(** [ObserveLaser], with a flag that tells whether the call reached
    [Resample()].  The counter never passes 6, so the 32-bit [int] is a
    [Z]. *)
Definition ObserveLaser_traced (fuel : nat) (ranges : list F)
    (range_min range_max angle_min angle_max : F) (st : State)
    : option (State * bool) :=
  let st := set_max_log_particle_weight st neg_infinity in
  if motion_gate st
  then
    do (ps, max_log) <-
      update_all st ranges range_min range_max angle_min angle_max
        (particles_ st) (max_log_particle_weight_ st);
    let st := set_max_log_particle_weight (set_particles st ps) max_log in
    let st := set_last_update_loc st (prev_odom_loc_ st) in
    do (st, resampled) <-
      (if resample_due st
       then do st' <- Resample fuel st;
            Some (set_updates_since_last_resample st' 0, true)
       else Some (st, false));
    Some (set_updates_since_last_resample st
            (updates_since_last_resample_ st + 1), resampled)
  else Some (st, false).

Definition ObserveLaser (fuel : nat) (ranges : list F)
    (range_min range_max angle_min angle_max : F) (st : State)
    : option State :=
  option_map fst
    (ObserveLaser_traced fuel ranges range_min range_max angle_min angle_max
       st).

End Filter.

(** ** The two instances of the arithmetic *)

(** The libm functions the filter calls besides [sqrt]. *)
Record Libm (F : Type) : Type := mkLibm {
  m_exp : F -> F;
  m_cos : F -> F;
  m_sin : F -> F
}.

(** *** Exact rational arithmetic *)

Definition Qltb (a b : Q) : bool := negb (Qle_bool b a).

Definition exact_scalar (sqrtQ : Q -> Q) (L : Libm Q) : Scalar Q := {|
  lit := fun q => q;
  add := Qplus;
  sub := Qminus;
  mul := Qmult;
  div := Qdiv;
  opp := Qopp;
  fabs := Qabs;
  ltb := Qltb;
  eqb := Qeq_bool;
  fsqrt := sqrtQ;
  fexp := m_exp L;
  fcos := m_cos L;
  fsin := m_sin L
|}.

(** *** IEEE-754 binary32 *)

Definition prec32 : Z := 24.
Definition emax32 : Z := 128.

(** The binary32 number nearest to the rational [q]: the correctly rounded
    quotient of its numerator and denominator. *)
Definition b32_lit (q : Q) : spec_float :=
  match Qnum q with
  | Z0 => S754_zero false
  | Zpos n =>
      SFdiv prec32 emax32 (S754_finite false n 0)
        (S754_finite false (Qden q) 0)
  | Zneg n =>
      SFdiv prec32 emax32 (S754_finite true n 0)
        (S754_finite false (Qden q) 0)
  end.

(** Every literal is rounded to binary32 and every operation is the
    binary32 one.  Where the C++ compares a [float] with a [double] literal
    or product ([dist > 0.1], [ranges[i] > 0.95*range_max],
    [ranges[i] < 1.05*range_min]) it promotes the [float] and compares in
    [double]; the two comparisons differ only when the [float] is within one
    rounding of the threshold, as at [dist = float(0.1)]. *)
Definition binary32_scalar (L : Libm spec_float) : Scalar spec_float := {|
  lit := b32_lit;
  add := SFadd prec32 emax32;
  sub := SFsub prec32 emax32;
  mul := SFmul prec32 emax32;
  div := SFdiv prec32 emax32;
  opp := SFopp;
  fabs := SFabs;
  ltb := SFltb;
  eqb := SFeqb;
  fsqrt := SFsqrt prec32 emax32;
  fexp := m_exp L;
  fcos := m_cos L;
  fsin := m_sin L
|}.

Definition binary32_infinity : Infinity spec_float := {|
  neg_infinity := S754_infinity true
|}.

(** A binary32 value that is neither an infinity nor NaN. *)
Definition is_finite32 (x : spec_float) : bool :=
  match x with
  | S754_zero _ | S754_finite _ _ _ => true
  | S754_infinity _ | S754_nan => false
  end.

(** A binary32 zero, of either sign. *)
Definition is_zero32 (x : spec_float) : bool :=
  match x with
  | S754_zero _ => true
  | _ => false
  end.

(** ** Stand-ins for the shared library, for running the model

    The theorems below hold for every libm and every [Externals]; concrete
    runs need concrete functions. *)

Section StandIns.

Context {F : Type} {SC : Scalar F}.

Definition cross (a b : Vector2f F) : F :=
  sub (mul (vx a) (vy b)) (mul (vy a) (vx b)).

(** Modelled from the spec: [line2f::Intersection] of the shared library is
    not among the sources.  Section 4.1: the intersection uses parametric
    line-line with the standard determinant test; on parallel or degenerate
    input it returns no hit. *)
Definition segment_intersection (l1 l2 : line2f F) : option (Vector2f F) :=
  let r := vsub (p1 l1) (p0 l1) in
  let s := vsub (p1 l2) (p0 l2) in
  let denom := cross r s in
  if eqb denom zero then None
  else
    let qp := vsub (p0 l2) (p0 l1) in
    let t := div (cross qp s) denom in
    let u := div (cross qp r) denom in
    if ltb t zero || ltb one t || ltb u zero || ltb one u then None
    else Some (vadd (p0 l1) (vscale t r)).

(** [math_util::AngleDiff]: the difference brought back into [-pi, pi] by
    one turn. *)
Definition angle_diff_model (a b : F) : F :=
  let pi := lit 3.14159265358979323846 in
  let d := sub a b in
  if ltb pi d then sub d (mul (lit 2) pi)
  else if ltb d (opp pi) then add d (mul (lit 2) pi)
  else d.

(** A random source that reads its draws from two fixed streams: the state
    is the number of draws made so far. *)
Definition stream_externals (unit_draw normal_draw : nat -> F)
    : Externals F := {|
  AngleDiff := angle_diff_model;
  Intersection := segment_intersection;
  Random := nat;
  UniformRandom := fun a b n =>
    (add a (mul (sub b a) (unit_draw n)), S n);
  Gaussian := fun mu sigma n =>
    (add mu (mul sigma (normal_draw n)), S n)
|}.

End StandIns.

(** [sqrt] on rationals, exact on the squares of rationals. *)
Definition sqrtQ_model (q : Q) : Q :=
  Qmake (Z.sqrt (Qnum q * Zpos (Qden q))) (Qden q).

(** [(1 + x/16)^16] for [exp], and Taylor polynomials for [cos] and [sin]:
    exact at 0, and [exp] is never negative. *)
Definition expQ_model (x : Q) : Q :=
  let y := (1 + x / 16)%Q in
  let y2 := (y * y)%Q in
  let y4 := (y2 * y2)%Q in
  let y8 := (y4 * y4)%Q in
  Qred (y8 * y8)%Q.

Definition cosQ_model (x : Q) : Q :=
  Qred (1 - x * x / 2 + x * x * x * x / 24)%Q.

Definition sinQ_model (x : Q) : Q :=
  Qred (x - x * x * x / 6 + x * x * x * x * x / 120)%Q.

Definition libmQ_model : Libm Q := mkLibm expQ_model cosQ_model sinQ_model.

Definition exact_model : Scalar Q := exact_scalar sqrtQ_model libmQ_model.

(** The same for binary32, where [exp] also underflows to [+0] below -104,
    overflows to [+inf] above 89 and maps NaN to NaN, as [expf] does. *)
Definition exp32_model (x : spec_float) : spec_float :=
  let mul32 := SFmul prec32 emax32 in
  match x with
  | S754_nan => S754_nan
  | _ =>
      if SFltb x (b32_lit (-104)) then S754_zero false
      else if SFltb (b32_lit 89) x then S754_infinity false
      else
        let y :=
          SFadd prec32 emax32 (b32_lit 1)
            (SFdiv prec32 emax32 x (b32_lit 16)) in
        let y2 := mul32 y y in
        let y4 := mul32 y2 y2 in
        let y8 := mul32 y4 y4 in
        mul32 y8 y8
  end.

Definition cos32_model (x : spec_float) : spec_float :=
  let mul32 := SFmul prec32 emax32 in
  let div32 := SFdiv prec32 emax32 in
  SFadd prec32 emax32
    (SFsub prec32 emax32 (b32_lit 1) (div32 (mul32 x x) (b32_lit 2)))
    (div32 (mul32 (mul32 x x) (mul32 x x)) (b32_lit 24)).

Definition sin32_model (x : spec_float) : spec_float :=
  let mul32 := SFmul prec32 emax32 in
  let div32 := SFdiv prec32 emax32 in
  SFadd prec32 emax32
    (SFsub prec32 emax32 x (div32 (mul32 x (mul32 x x)) (b32_lit 6)))
    (div32 (mul32 x (mul32 (mul32 x x) (mul32 x x))) (b32_lit 120)).

Definition libm32_model : Libm spec_float :=
  mkLibm exp32_model cos32_model sin32_model.

Definition binary32_model : Scalar spec_float := binary32_scalar libm32_model.

(** ** Notions of the specification *)

Section Notions.

Context {F : Type} {SC : Scalar F} {E : Externals F}.

(** The sum of a list of scalars, accumulated from zero in list order, as a
    C++ loop [sum += x] does. *)
Definition sum_list (l : list F) : F := fold_left add l zero.

(** [clamp(v, lo, hi)]: [lo] below [lo], [hi] above [hi], [v] in between. *)
Definition clamp (v lo hi : F) : F :=
  if ltb v lo then lo else if ltb hi v then hi else v.

(** A particle after [log_weight -= max_log]. *)
Definition normalize_particle (max_log : F) (p : Particle F) : Particle F :=
  set_log_weight p (sub (log_weight p) max_log).

(** The breakpoints [normalized_sum] runs through, from [acc]. *)
Fixpoint breakpoints_from (max_log : F) (ps : list (Particle F)) (acc : F)
    : list F :=
  match ps with
  | [] => []
  | p :: ps' =>
      let acc' := add acc (fexp (sub (log_weight p) max_log)) in
      acc' :: breakpoints_from max_log ps' acc'
  end.

(** The total normalized weight S: the last value of [normalized_sum]. *)
Definition normalized_sum_of (max_log : F) (ps : list (Particle F)) : F :=
  fold_left (fun acc p => add acc (fexp (sub (log_weight p) max_log)))
    ps zero.

(** [division_size] and the uniform draw of a [Resample] call in state
    [st]. *)
Definition division_size_of (n : nat) (st : FilterState E) : F :=
  div (normalized_sum_of (max_log_particle_weight_ st) (particles_ st))
      (of_nat n).

Definition sample_point_of (n : nat) (st : FilterState E) : F :=
  fst (UniformRandom zero (division_size_of n st) (rng_ st)).

(** The distance [ObserveLaser] compares with 0.1 and 1.0. *)
Definition dist_since_last_update (st : FilterState E) : F :=
  norm (vsub (prev_odom_loc_ st) (last_update_loc_ st)).

(** The translation [ObserveOdometry] compares with 1.0. *)
Definition odom_translation (odom_loc : Vector2f F) (st : FilterState E)
    : F :=
  norm (vsub odom_loc (prev_odom_loc_ st)).

(** *** One [Update] call, ray by ray *)

Section Rays.

Variables (st : FilterState E) (ranges : list F).
Variables (range_min range_max angle_min angle_max : F).
Variable particle : Particle F.

(** The number M of rays and the stride of the subsampling. *)
Definition num_rays : nat := length ranges / 10.
Definition stride : nat := length ranges / num_rays.

(** The predicted range of ray [i]: the distance from the laser of the
    particle to the predicted point. *)
Definition predicted_range_of (i : nat) : F :=
  norm (vsub (nth i (GetPredictedPointCloud (map_ st) (loc particle)
                       (angle particle) (length ranges) range_min range_max
                       angle_min angle_max)
                  (Vec2 zero zero))
             (lidar_offset (loc particle) (angle particle))).

(** The measured range of ray [i] under lockstep subsampling:
    [ranges[stride*i]]. *)
Definition measured_lockstep (i : nat) : F := nth (stride * i) ranges zero.

(** Ray [i] is kept when the test of the loop does not [continue]; the test
    reads [ranges[i]]. *)
Definition ray_kept (i : nat) : bool :=
  negb (ray_dropped range_min range_max (predicted_range_of i)
          (nth i ranges zero)).

(** The usable-band test as the specification has it: on the lockstep
    measurement. *)
Definition ray_kept_lockstep (i : nat) : bool :=
  negb (ray_dropped range_min range_max (predicted_range_of i)
          (measured_lockstep i)).

(** [-d^2 / var_obs] with
    [d = clamp(measured - predicted, -d_short, +d_long)]. *)
Definition ray_contribution (i : nat) : F :=
  div (opp (Sq (clamp (sub (measured_lockstep i) (predicted_range_of i))
                  (opp (d_short_ st)) (d_long_ st))))
      (var_obs_ st).

(** The usable-band test in the words of the specification, on the lockstep
    measurement: the predicted range is inside (range_min, range_max) and the
    measured range is neither above [0.95*range_max] nor below
    [1.05*range_min]. *)
Definition in_usable_band (i : nat) : bool :=
  ltb range_min (predicted_range_of i)
  && ltb (predicted_range_of i) range_max
  && negb (ltb (mul (lit 0.95) range_max) (measured_lockstep i))
  && negb (ltb (measured_lockstep i) (mul (lit 1.05) range_min)).

(** The total increment of one [Update] call as the specification has it:
    the sum of the contributions of the rays in the usable band. *)
Definition claimed_increment : F :=
  sum_list (map ray_contribution (filter in_usable_band (seq 0 num_rays))).

(** What a ray satisfies when the loop of [Update] does not [continue]: the
    predicted range is not outside [[range_min, range_max]] and [ranges[i]]
    is not outside [[1.05*range_min, 0.95*range_max]]. *)
Definition passes_loop_test (i : nat) : bool :=
  negb (ltb range_max (predicted_range_of i))
  && negb (ltb (predicted_range_of i) range_min)
  && negb (ltb (mul (lit 0.95) range_max) (nth i ranges zero))
  && negb (ltb (nth i ranges zero) (mul (lit 1.05) range_min)).

End Rays.

End Notions.

Section Runs.

Context {F : Type} {SC : Scalar F} {E : Externals F} {INF : Infinity F}.

Variable FLAGS_num_particles : nat.

(** The calls the transport makes on the filter. *)
Inductive Call : Type :=
| CallOdometry (odom_loc : Vector2f F) (odom_angle : F)
| CallLaser (fuel : nat) (ranges : list F)
    (range_min range_max angle_min angle_max : F).

(** A run of the filter from one baseline: the calls are made in order.
    The list returned holds, for each [ObserveLaser] call that passed the
    motion gate, whether the call reached [Resample()].  The run is [None]
    when an [ObserveOdometry] call re-baselines (a new baseline starts
    there) or when a call fails. *)
Fixpoint run_calls (calls : list Call) (st : FilterState E)
    : option (FilterState E * list bool) :=
  match calls with
  | [] => Some (st, [])
  | CallOdometry odom_loc odom_angle :: calls' =>
      if odom_gate odom_loc st
      then run_calls calls' (ObserveOdometry odom_loc odom_angle st)
      else None
  | CallLaser fuel ranges range_min range_max angle_min angle_max
    :: calls' =>
      do (st1, flag) <-
        ObserveLaser_traced FLAGS_num_particles fuel ranges range_min
          range_max angle_min angle_max st;
      do (st2, flags) <- run_calls calls' st1;
      Some (st2, if motion_gate st then flag :: flags else flags)
  end.

Definition run_flags (calls : list Call) (st : FilterState E)
    : option (list bool) :=
  option_map snd (run_calls calls st).

(** What the counter does at a gated call. *)
Definition counter_step (c : Z) : Z := if (5 <? c)%Z then 1%Z else (c + 1)%Z.

(** The flags of [n] gated calls from the counter value [c]. *)
Fixpoint expected_flags (c : Z) (n : nat) : list bool :=
  match n with
  | O => []
  | S n' => (5 <? c)%Z :: expected_flags (counter_step c) n'
  end.

End Runs.

(** ** Sessions

    The filter is driven by three entry points; a session is a sequence of
    such requests. *)

Section Sessions.

Context {F : Type} {SC : Scalar F} {E : Externals F} {INF : Infinity F}.

Variable FLAGS_num_particles : nat.

(** The three entry points that change the filter, as the node calls them
    from its callbacks. *)
Inductive Request : Type :=
| ReqInitialize (loaded : list (line2f F)) (l : Vector2f F) (a : F)
| ReqOdometry (odom_loc : Vector2f F) (odom_angle : F)
| ReqLaser (fuel : nat) (ranges : list F)
    (range_min range_max angle_min angle_max : F).

Definition serve (r : Request) (st : FilterState E)
    : option (FilterState E) :=
  match r with
  | ReqInitialize loaded l a =>
      Some (Initialize FLAGS_num_particles loaded l a st)
  | ReqOdometry odom_loc odom_angle =>
      Some (ObserveOdometry odom_loc odom_angle st)
  | ReqLaser fuel ranges range_min range_max angle_min angle_max =>
      ObserveLaser FLAGS_num_particles fuel ranges range_min range_max
        angle_min angle_max st
  end.

(** The requests of a session, served in order; [None] when one fails. *)
Fixpoint serve_all (rs : list Request) (st : FilterState E)
    : option (FilterState E) :=
  match rs with
  | [] => Some st
  | r :: rs' => do st1 <- serve r st; serve_all rs' st1
  end.

End Sessions.

(** The invariant of the second loop of [Resample] in exact arithmetic,
    for total weight [S], step [d] and draw [u]: after [k] particles have
    been emitted the sample point is [u + k*d], and the previous sample
    point was below [S]. *)
Definition resample_invariant (S d u : Q) (k : nat) (sample_point : Q)
    : Prop :=
  (sample_point == u + inject_Z (Z.of_nat k) * d)%Q
  /\ (sample_point - d < S)%Q.

(** ** Concrete filters

    States and scans on which the model is run.  The random source reads
    the constant stream [u] for uniform draws and the constant stream 0 for
    Gaussian draws. *)

(** *** In exact arithmetic *)

Definition EQ (u : Q) : Externals Q :=
  @stream_externals Q exact_model (fun _ => u) (fun _ => 0%Q).

(** A filter with initialized odometry, baseline at the origin, counter
    zero, [var_obs_ = 1], [d_short_ = d_long_ = 0.5] as the constructor sets
    them, and stored maximum 0. *)
Definition filterQ (u : Q) (ps : list (Particle Q)) (lines : list (line2f Q))
    : FilterState (EQ u) :=
  mkFilter (EQ u) ps (Vec2 0 0)%Q 0%Q true 0%Q 0%Q 0%nat lines
    1%Q 0.5%Q 0.5%Q 0%Z (Vec2 0 0)%Q.

(** A particle at the origin that looks along the x axis. *)
Definition originQ : Particle Q := mkParticle (Vec2 0 0)%Q 0%Q 0%Q.

(** A wall across the x axis at x = 1.1. *)
Definition wallQ : line2f Q := Line2 (Vec2 1.1 (-1))%Q (Vec2 1.1 1)%Q.

(** A scan of twenty ranges, all 1 m except [ranges[1]], which is 0. *)
Definition scan20 : list Q :=
  [1; 0; 1; 1; 1; 1; 1; 1; 1; 1; 1; 1; 1; 1; 1; 1; 1; 1; 1; 1]%Q.

(** Three particles with log-weights 0, -1 and -2. *)
Definition three_particlesQ : list (Particle Q) :=
  [mkParticle (Vec2 1 0)%Q 0%Q 0%Q;
   mkParticle (Vec2 2 0)%Q 0%Q (-1)%Q;
   mkParticle (Vec2 3 0)%Q 0%Q (-2)%Q].

(** *** In binary32 *)

Definition E32 (u : spec_float) : Externals spec_float :=
  @stream_externals spec_float binary32_model
    (fun _ => u) (fun _ => S754_zero false).

Definition vec32 (x y : Q) : Vector2f spec_float :=
  Vec2 (b32_lit x) (b32_lit y).

Definition particle32 (x y a w : Q) : Particle spec_float :=
  mkParticle (vec32 x y) (b32_lit a) (b32_lit w).

(** As [filterQ], with the odometry flag [init] and the last update at
    [last]. *)
Definition filter32 (u : spec_float) (ps : list (Particle spec_float))
    (lines : list (line2f spec_float)) (init : bool)
    (last : Vector2f spec_float) : FilterState (E32 u) :=
  mkFilter (E32 u) ps (vec32 0 0) (b32_lit 0) init (b32_lit 0) (b32_lit 0)
    0%nat lines (b32_lit 1) (b32_lit 0.5) (b32_lit 0.5) 0%Z last.

(** The largest binary32 number below 1: 1 - 2^-24 = 0.99999994. *)
Definition below_one32 : spec_float := S754_finite false 16777215 (-24).

(** Fifty particles with equal log-weights 0, stored maximum 0, and a
    random source whose uniform draw from [0, 1) is [below_one32]. *)
Definition fifty_equal32 : FilterState (E32 below_one32) :=
  filter32 below_one32
    (map (fun i => particle32 (inject_Z (Z.of_nat i)) 0 0 0) (seq 0 50))
    [] true (vec32 0 0).

(** Scenario 2 of the specification: fifty particles, the first with
    log-weight 0 and the others with -1000, stored maximum 0; the uniform
    draw is 0. *)
Definition one_heavy32 : FilterState (E32 (S754_zero false)) :=
  filter32 (S754_zero false)
    (particle32 0 0 0 0
     :: map (fun i => particle32 (inject_Z (Z.of_nat i)) 0 0 (-1000))
          (seq 1 49))
    [] true (vec32 0 0).

(** Two particles in front of a wall at x = 3, and a scan of ten ranges of
    2.5 m. *)
Definition wall32 : line2f spec_float := Line2 (vec32 3 (-5)) (vec32 3 5).

Definition two_particles32 : FilterState (E32 (b32_lit 0.5)) :=
  filter32 (b32_lit 0.5) [particle32 0 0 0 0; particle32 0.1 0 0 0]
    [wall32] true (vec32 0 0).

Definition scan10_32 : list spec_float := map b32_lit (repeat 2.5%Q 10).

(** Seven rounds of an odometry message 0.2 m further along x followed by
    a laser scan. *)
Definition seven_updates : list (Call (F := spec_float)) :=
  flat_map
    (fun k =>
       [CallOdometry (vec32 (inject_Z (Z.of_nat k) * 0.2) 0) (b32_lit 0);
        CallLaser 10 scan10_32 (b32_lit 0.1) (b32_lit 10) (b32_lit 0)
          (b32_lit 0)])
    (seq 1 7).

(** [wallQ], [originQ] and [scan20] in binary32. *)
Definition wall11_32 : line2f spec_float :=
  Line2 (vec32 1.1 (-1)) (vec32 1.1 1).

Definition origin32 : Particle spec_float := particle32 0 0 0 0.

Definition scan20_32 : list spec_float := map b32_lit scan20.

(** Two particles whose log-weights are 1000 below the stored maximum 0. *)
Definition two_light32 : FilterState (E32 (b32_lit 0.5)) :=
  filter32 (b32_lit 0.5)
    [particle32 0 0 0 (-1000); particle32 1 0 0 (-1000)]
    [] true (vec32 0 0).

(** [two_particles32] when the baseline is half a metre from the last
    update, with and without initialized odometry, and a scan of five
    ranges. *)
Definition moved32 : FilterState (E32 (b32_lit 0.5)) :=
  filter32 (b32_lit 0.5) [particle32 0 0 0 0; particle32 0.1 0 0 0]
    [wall32] true (vec32 0.5 0).

Definition before_odometry32 : FilterState (E32 (b32_lit 0.5)) :=
  filter32 (b32_lit 0.5) [particle32 0 0 0 0; particle32 0.1 0 0 0]
    [wall32] false (vec32 0.5 0).

Definition scan5_32 : list spec_float := map b32_lit (repeat 2.5%Q 5).

(** A session: a pose is set, two odometry messages 0.2 m apart arrive,
    then a scan. *)
Definition short_session : list (Request (F := spec_float)) :=
  [ReqInitialize [wall32] (vec32 0 0) (b32_lit 0);
   ReqOdometry (vec32 0 0) (b32_lit 0);
   ReqOdometry (vec32 0.2 0) (b32_lit 0);
   ReqLaser 10 scan10_32 (b32_lit 0.1) (b32_lit 10) (b32_lit 0) (b32_lit 0)].

(** A wall across the x axis at x = 1.5. *)
Definition wall15Q : line2f Q := Line2 (Vec2 1.5 (-1))%Q (Vec2 1.5 1)%Q.

Definition wall15_32 : line2f spec_float :=
  Line2 (vec32 1.5 (-1)) (vec32 1.5 1).

(** Three particles of which the second is 1000 below the stored maximum 0:
    its weight [exp(-1000)] underflows to zero. *)
Definition underflow32 : FilterState (E32 (b32_lit 0.5)) :=
  filter32 (b32_lit 0.5)
    [particle32 1 0 0 0; particle32 2 0 0 (-1000); particle32 3 0 0 0]
    [] true (vec32 0 0).

(** Case analysis on the signs of binary32 numbers under comparison. *)
Ltac sf_cases :=
  cbn; repeat match goal with s : bool |- _ => destruct s end; cbn;
  try congruence;
  change (PosDef.Pos.compare_cont Eq ?a ?b) with (Pos.compare a b).

(** ** Properties that hold for every arithmetic *)

Section Generic.

Context {F : Type} {SC : Scalar F} {E : Externals F}.

Variable FLAGS_num_particles : nat.

Lemma normalize_weights_exact (max_log : F) (ps : list (Particle F)) :
  forall acc,
    normalize_weights max_log (length ps) ps acc
    = Some (map (normalize_particle max_log) ps,
            breakpoints_from max_log ps acc,
            fold_left
              (fun a p => add a (fexp (sub (log_weight p) max_log)))
              ps acc).
Proof.
  induction ps as [|p ps IH]; intro acc; simpl.
  - reflexivity.
  - rewrite IH. reflexivity.
Qed.

Lemma normalize_weights_short (max_log : F) (n : nat) :
  forall (ps : list (Particle F)) acc,
    (length ps < n)%nat -> normalize_weights max_log n ps acc = None.
Proof.
  induction n as [|n IH]; intros ps acc Hlen; [lia|].
  destruct ps as [|p ps]; simpl; [reflexivity|].
  simpl in Hlen. rewrite IH by lia. reflexivity.
Qed.

Lemma map_normalize_loc (max_log : F) (ps : list (Particle F)) :
  map (@loc F) (map (normalize_particle max_log) ps) = map (@loc F) ps.
Proof. rewrite map_map. apply map_ext. intros []; reflexivity. Qed.

Lemma map_normalize_angle (max_log : F) (ps : list (Particle F)) :
  map (@angle F) (map (normalize_particle max_log) ps) = map (@angle F) ps.
Proof. rewrite map_map. apply map_ext. intros []; reflexivity. Qed.

(** C10.  When [Resample] takes the [division_size == 0] return, every
    particle's log-weight has been decremented by the stored maximum and one
    uniform draw has been consumed; the poses, the number of particles and
    the stored maximum are as before. *)
Theorem Resample_zero_weight_abort_not_atomic
    (fuel : nat) (st : FilterState E) :
  particles_ st <> [] ->
  odom_initialized_ st = true ->
  length (particles_ st) = FLAGS_num_particles ->
  eqb (division_size_of FLAGS_num_particles st) zero = true ->
  exists st',
    Resample FLAGS_num_particles fuel st = Some st'
    /\ particles_ st'
       = map (normalize_particle (max_log_particle_weight_ st))
             (particles_ st)
    /\ rng_ st'
       = snd (UniformRandom zero (division_size_of FLAGS_num_particles st)
                (rng_ st))
    /\ map (@loc F) (particles_ st') = map (@loc F) (particles_ st)
    /\ map (@angle F) (particles_ st') = map (@angle F) (particles_ st)
    /\ length (particles_ st') = length (particles_ st)
    /\ max_log_particle_weight_ st' = max_log_particle_weight_ st.
Proof.
  intros Hne Hinit Hlen Hzero.
  unfold Resample.
  destruct (particles_ st) as [|p ps] eqn:Hps; [congruence|].
  rewrite Hinit. cbn [negb].
  rewrite <- Hlen, normalize_weights_exact.
  unfold division_size_of, normalized_sum_of in Hzero.
  rewrite Hps, <- Hlen in Hzero.
  cbn [rng_ set_particles].
  destruct (UniformRandom zero _ (rng_ st)) as [sample_point rng'] eqn:Hu.
  rewrite Hzero.
  eexists. split; [reflexivity|].
  cbn [particles_ rng_ max_log_particle_weight_ set_rng set_particles].
  repeat split.
  - unfold division_size_of, normalized_sum_of.
    rewrite Hps, Hu. reflexivity.
  - apply map_normalize_loc.
  - apply map_normalize_angle.
  - apply length_map.
Qed.

(** [ObserveOdometry] re-baselines exactly when its test fails. *)
Lemma ObserveOdometry_gate_closed
    (odom_loc : Vector2f F) (odom_angle : F) (st : FilterState E) :
  odom_gate odom_loc st = false ->
  ObserveOdometry odom_loc odom_angle st
  = set_odom_initialized (ResetOdomVariables odom_loc odom_angle st) true.
Proof. intro H. unfold ObserveOdometry. rewrite H. reflexivity. Qed.

(** After [Initialize] the next [ObserveOdometry] call is a first call:
    the flag is down. *)
Lemma Initialize_clears_odom_initialized
    (loaded : list (line2f F)) (l : Vector2f F) (a : F)
    (st : FilterState E) :
  odom_initialized_ (Initialize FLAGS_num_particles loaded l a st) = false.
Proof.
  unfold Initialize. destruct (init_particles _ _ _ _ _) as [ps rng].
  reflexivity.
Qed.

Section Order.

(** [<] is asymmetric; this holds for rationals and for IEEE floats. *)
Hypothesis ltb_asym : forall a b : F, ltb a b = true -> ltb b a = false.

(** C6.  On the first [ObserveOdometry] call after initialization, and on a
    call whose translation since the previous call exceeds 1 m, no particle
    changes and the odometry baseline becomes the reported pose. *)
Theorem ObserveOdometry_rebaselines_without_propagating
    (odom_loc : Vector2f F) (odom_angle : F) (st : FilterState E) :
  odom_initialized_ st = false
  \/ ltb (lit 1.0) (odom_translation odom_loc st) = true ->
  particles_ (ObserveOdometry odom_loc odom_angle st) = particles_ st
  /\ prev_odom_loc_ (ObserveOdometry odom_loc odom_angle st) = odom_loc
  /\ prev_odom_angle_ (ObserveOdometry odom_loc odom_angle st)
     = odom_angle.
Proof.
  intro H.
  rewrite ObserveOdometry_gate_closed.
  - repeat split.
  - unfold odom_gate. destruct H as [H | H].
    + rewrite H. reflexivity.
    + apply ltb_asym in H. unfold odom_translation in H.
      rewrite H. apply andb_false_r.
Qed.

End Order.

(** *** The weight update *)

Lemma all_some_map_nth (l : list F) (f : nat -> nat) (idx : list nat) :
  (forall i, In i idx -> (f i < length l)%nat) ->
  all_some (map (fun i => nth_error l (f i)) idx)
  = Some (map (fun i => nth (f i) l zero) idx).
Proof.
  induction idx as [|i idx IH]; intro Hin; simpl.
  - reflexivity.
  - rewrite (nth_error_nth' l zero) by (apply Hin; left; reflexivity).
    rewrite IH by (intros j Hj; apply Hin; right; exact Hj).
    reflexivity.
Qed.

Lemma nth_error_map_seq (f : nat -> F) (m i : nat) :
  (i < m)%nat -> nth_error (map f (seq 0 m)) i = Some (f i).
Proof.
  intro Hi. rewrite nth_error_map, (nth_error_nth' _ 0%nat)
    by (rewrite length_seq; exact Hi).
  rewrite seq_nth by exact Hi. reflexivity.
Qed.

Lemma stride_in_range (n i : nat) :
  (10 <= n)%nat -> (i < n / 10)%nat -> (n / (n / 10) * i < n)%nat.
Proof.
  intros Hn Hi.
  assert (Hm : (0 < n / 10)%nat) by lia.
  assert (Hmn : (n / 10 <= n)%nat) by (apply Nat.Div0.div_le_upper_bound; lia).
  assert (Hr : (1 <= n / (n / 10))%nat)
    by (apply Nat.div_le_lower_bound; lia).
  pose proof (Nat.Div0.mul_div_le n (n / 10)) as Hle.
  nia.
Qed.

Lemma trim_ranges_lockstep (ranges : list F) :
  (10 <= length ranges)%nat ->
  trim_ranges ranges (stride ranges) (num_rays ranges)
  = Some (map (measured_lockstep ranges) (seq 0 (num_rays ranges))).
Proof.
  intro Hlen. unfold trim_ranges.
  rewrite (all_some_map_nth ranges (fun i => (stride ranges * i)%nat)).
  - reflexivity.
  - intros i Hi. apply in_seq in Hi. unfold stride, num_rays in *.
    apply stride_in_range; lia.
Qed.

Section Clamp.

(** [<] is transitive; this holds for rationals and for IEEE floats. *)
Hypothesis ltb_trans :
  forall a b c : F, ltb a b = true -> ltb b c = true -> ltb a c = true.

(** [std::max(std::min(v, hi), lo)] is [clamp(v, lo, hi)] when [hi] is not
    below [lo]. *)
Lemma clamp_range_diff_is_clamp (st : FilterState E) (v : F) :
  ltb (d_long_ st) (opp (d_short_ st)) = false ->
  clamp_range_diff st v = clamp v (opp (d_short_ st)) (d_long_ st).
Proof.
  intro Hband. unfold clamp_range_diff, clamp, fmax, fmin.
  destruct (ltb (d_long_ st) v) eqn:Hhi.
  - rewrite Hband.
    destruct (ltb v (opp (d_short_ st))) eqn:Hlo; [|reflexivity].
    rewrite (ltb_trans _ _ _ Hhi Hlo) in Hband. discriminate.
  - reflexivity.
Qed.

Lemma weight_loop_sum (st : FilterState E) (ranges : list F)
    (range_min range_max angle_min angle_max : F) (particle : Particle F) :
  (10 <= length ranges)%nat ->
  ltb (d_long_ st) (opp (d_short_ st)) = false ->
  forall (idx : list nat) (acc : F),
    (forall i, In i idx -> (i < num_rays ranges)%nat) ->
    weight_loop st ranges
      (map (measured_lockstep ranges) (seq 0 (num_rays ranges)))
      (GetPredictedPointCloud (map_ st) (loc particle) (angle particle)
         (length ranges) range_min range_max angle_min angle_max)
      (lidar_offset (loc particle) (angle particle))
      range_min range_max idx acc
    = Some (fold_left add
              (map (ray_contribution st ranges range_min range_max
                      angle_min angle_max particle)
                   (filter (ray_kept st ranges range_min range_max
                              angle_min angle_max particle) idx))
              acc).
Proof.
  intros Hlen Hband.
  assert (Hmn : (num_rays ranges <= length ranges)%nat)
    by (unfold num_rays; apply Nat.Div0.div_le_upper_bound; lia).
  induction idx as [|i idx IH]; intros acc Hin.
  - reflexivity.
  - assert (Hi : (i < num_rays ranges)%nat) by (apply Hin; left; reflexivity).
    cbn [weight_loop].
    rewrite (nth_error_nth' _ (Vec2 zero zero))
      by (unfold GetPredictedPointCloud;
          rewrite length_map, length_seq; exact Hi).
    rewrite (nth_error_nth' ranges zero) by lia.
    fold (predicted_range_of st ranges range_min range_max angle_min
            angle_max particle i).
    cbn [filter]. unfold ray_kept at 1.
    destruct (ray_dropped range_min range_max _ (nth i ranges zero)).
    + cbn [negb]. apply IH. intros j Hj. apply Hin. right. exact Hj.
    + cbn [negb map fold_left].
      rewrite nth_error_map_seq by exact Hi.
      rewrite IH by (intros j Hj; apply Hin; right; exact Hj).
      unfold ray_log_error, ray_contribution.
      rewrite clamp_range_diff_is_clamp by exact Hband.
      reflexivity.
Qed.

Lemma ray_kept_passes_loop_test (st : FilterState E) (ranges : list F)
    (range_min range_max angle_min angle_max : F) (particle : Particle F)
    (i : nat) :
  ray_kept st ranges range_min range_max angle_min angle_max particle i
  = passes_loop_test st ranges range_min range_max angle_min angle_max
      particle i.
Proof.
  unfold ray_kept, ray_dropped, passes_loop_test.
  rewrite !negb_orb. reflexivity.
Qed.

(** X23.  With odometry initialized and a scan of at least ten ranges,
    [Update] returns, leaves the pose alone and adds to the log-weight the
    sum, in ray order, of [-d^2 / var_obs] with
    [d = clamp(ranges[stride*i] - predicted, -d_short, +d_long)] over the
    rays [i] whose predicted range is not outside [[range_min, range_max]]
    and whose [ranges[i]] is not outside
    [[1.05*range_min, 0.95*range_max]]. *)
Theorem Update_adds_sum_over_rays_passing_its_test
    (st : FilterState E) (ranges : list F)
    (range_min range_max angle_min angle_max : F) (particle : Particle F) :
  odom_initialized_ st = true ->
  (10 <= length ranges)%nat ->
  ltb (d_long_ st) (opp (d_short_ st)) = false ->
  exists particle',
    Update st ranges range_min range_max angle_min angle_max particle
    = Some particle'
    /\ loc particle' = loc particle
    /\ angle particle' = angle particle
    /\ log_weight particle'
       = add (log_weight particle)
           (sum_list
              (map (ray_contribution st ranges range_min range_max
                      angle_min angle_max particle)
                   (filter (passes_loop_test st ranges range_min range_max
                              angle_min angle_max particle)
                           (seq 0 (num_rays ranges))))).
Proof.
  intros Hinit Hlen Hband. unfold Update. rewrite Hinit. cbn [negb].
  assert (Hcloud :
    length (GetPredictedPointCloud (map_ st) (loc particle) (angle particle)
              (length ranges) range_min range_max angle_min angle_max)
    = num_rays ranges)
    by (unfold GetPredictedPointCloud; rewrite length_map, length_seq;
        reflexivity).
  rewrite Hcloud.
  assert (Hm : (0 < num_rays ranges)%nat)
    by (unfold num_rays; apply Nat.div_str_pos; lia).
  destruct (num_rays ranges) as [|m] eqn:Hnum; [lia|].
  rewrite <- Hnum. fold (stride ranges).
  rewrite trim_ranges_lockstep by exact Hlen.
  rewrite weight_loop_sum; try assumption.
  - eexists. split; [reflexivity|]. repeat split.
    rewrite (filter_ext _ _
               (ray_kept_passes_loop_test st ranges range_min range_max
                  angle_min angle_max particle)).
    reflexivity.
  - intros i Hi. apply in_seq in Hi. lia.
Qed.

End Clamp.

End Generic.

Section GenericLaser.

Context {F : Type} {SC : Scalar F} {E : Externals F} {INF : Infinity F}.

Variable FLAGS_num_particles : nat.

Lemma motion_gate_set_max (st : FilterState E) (w : F) :
  motion_gate (set_max_log_particle_weight st w) = motion_gate st.
Proof. reflexivity. Qed.

Lemma ObserveLaser_traced_gate_closed
    (fuel : nat) (ranges : list F)
    (range_min range_max angle_min angle_max : F) (st : FilterState E) :
  motion_gate st = false ->
  ObserveLaser_traced FLAGS_num_particles fuel ranges range_min range_max
    angle_min angle_max st
  = Some (set_max_log_particle_weight st neg_infinity, false).
Proof.
  intro H. unfold ObserveLaser_traced.
  rewrite motion_gate_set_max, H. reflexivity.
Qed.

(** C5.  When the distance moved since the last sensor update is not
    strictly between 0.1 m and 1.0 m, [ObserveLaser] returns and leaves
    every particle (pose and log-weight) as it was. *)
Theorem ObserveLaser_outside_band_keeps_particles
    (fuel : nat) (ranges : list F)
    (range_min range_max angle_min angle_max : F) (st : FilterState E) :
  ltb (lit 0.1) (dist_since_last_update st)
  && ltb (dist_since_last_update st) (lit 1.0) = false ->
  exists st',
    ObserveLaser FLAGS_num_particles fuel ranges range_min range_max
      angle_min angle_max st = Some st'
    /\ particles_ st' = particles_ st.
Proof.
  intro H. unfold ObserveLaser.
  rewrite ObserveLaser_traced_gate_closed by exact H.
  eexists. split; reflexivity.
Qed.

(** The other direction: a call that changes a particle passed the motion
    gate. *)
Corollary ObserveLaser_changes_only_inside_band
    (fuel : nat) (ranges : list F)
    (range_min range_max angle_min angle_max : F) (st st' : FilterState E) :
  ObserveLaser FLAGS_num_particles fuel ranges range_min range_max
    angle_min angle_max st = Some st' ->
  particles_ st' <> particles_ st ->
  ltb (lit 0.1) (dist_since_last_update st) = true
  /\ ltb (dist_since_last_update st) (lit 1.0) = true.
Proof.
  intros Hrun Hdiff. apply andb_true_iff.
  change (motion_gate st = true).
  destruct (motion_gate st) eqn:Hgate; [reflexivity|].
  unfold ObserveLaser in Hrun.
  rewrite ObserveLaser_traced_gate_closed in Hrun by exact Hgate.
  injection Hrun as <-. contradiction Hdiff. reflexivity.
Qed.

(** *** The resampling schedule *)

Lemma ObserveLaser_traced_gated
    (fuel : nat) (ranges : list F)
    (range_min range_max angle_min angle_max : F)
    (st st1 : FilterState E) (flag : bool) :
  motion_gate st = true ->
  ObserveLaser_traced FLAGS_num_particles fuel ranges range_min range_max
    angle_min angle_max st = Some (st1, flag) ->
  flag = (5 <? updates_since_last_resample_ st)%Z
  /\ updates_since_last_resample_ st1
     = counter_step (updates_since_last_resample_ st).
Proof.
  intros Hgate Hrun. unfold ObserveLaser_traced in Hrun.
  rewrite motion_gate_set_max, Hgate in Hrun.
  destruct (update_all _ _ _ _ _ _ _ _) as [[ps max_log]|];
    [|discriminate].
  unfold resample_due, counter_step in *.
  cbn [updates_since_last_resample_ set_last_update_loc
       set_max_log_particle_weight set_particles] in Hrun.
  destruct (5 <? updates_since_last_resample_ st)%Z.
  - destruct (Resample _ _ _) as [st'|]; [|discriminate].
    injection Hrun as <- <-. split; reflexivity.
  - injection Hrun as <- <-. split; reflexivity.
Qed.

Lemma ObserveLaser_ungated_counter
    (fuel : nat) (ranges : list F)
    (range_min range_max angle_min angle_max : F)
    (st st1 : FilterState E) :
  motion_gate st = false ->
  ObserveLaser FLAGS_num_particles fuel ranges range_min range_max
    angle_min angle_max st = Some st1 ->
  updates_since_last_resample_ st1 = updates_since_last_resample_ st.
Proof.
  intros Hgate Hrun. unfold ObserveLaser in Hrun.
  rewrite ObserveLaser_traced_gate_closed in Hrun by exact Hgate.
  injection Hrun as <-. reflexivity.
Qed.

Lemma ObserveOdometry_propagating_counter
    (odom_loc : Vector2f F) (odom_angle : F) (st : FilterState E) :
  odom_gate odom_loc st = true ->
  updates_since_last_resample_ (ObserveOdometry odom_loc odom_angle st)
  = updates_since_last_resample_ st.
Proof.
  intro Hgate. unfold ObserveOdometry. rewrite Hgate.
  destruct (propagate _ _ _ _ _) as [ps rng]. reflexivity.
Qed.

(** The flags of a run are the ones the counter dictates. *)
Lemma run_calls_flags (calls : list Call) :
  forall (st st' : FilterState E) (tr : list bool),
    run_calls FLAGS_num_particles calls st = Some (st', tr) ->
    tr = expected_flags (updates_since_last_resample_ st) (length tr).
Proof.
  induction calls as [|call calls IH]; intros st st' tr Hrun.
  - injection Hrun as <- <-. reflexivity.
  - destruct call as [odom_loc odom_angle
                     | fuel ranges rmin rmax amin amax];
      cbn [run_calls] in Hrun.
    + destruct (odom_gate odom_loc st) eqn:Hgate; [|discriminate].
      apply IH in Hrun.
      rewrite ObserveOdometry_propagating_counter in Hrun by exact Hgate.
      exact Hrun.
    + destruct (ObserveLaser_traced _ _ _ _ _ _ _ st)
        as [[st1 flag]|] eqn:Hcall; [|discriminate].
      destruct (run_calls _ calls st1) as [[st2 flags]|] eqn:Hrest;
        [|discriminate].
      injection Hrun as <- <-. apply IH in Hrest.
      destruct (motion_gate st) eqn:Hgate.
      * eapply ObserveLaser_traced_gated in Hcall; [|exact Hgate].
        destruct Hcall as [-> Hc].
        cbn [length expected_flags]. rewrite <- Hc, <- Hrest. reflexivity.
      * rewrite ObserveLaser_traced_gate_closed in Hcall by exact Hgate.
        injection Hcall as <- _. exact Hrest.
Qed.

(** C2.  From a fresh baseline (counter zero), among the first seven
    [ObserveLaser] calls that pass the motion gate, [Resample] is reached
    on the seventh and on no earlier one; in particular not on the
    fifth. *)
Theorem ObserveLaser_first_resample_on_seventh_gated_call
    (calls : list Call) (st : FilterState E) (tr : list bool)
    (k : nat) (flag : bool) :
  run_flags FLAGS_num_particles calls st = Some tr ->
  updates_since_last_resample_ st = 0%Z ->
  nth_error tr k = Some flag ->
  (k <= 6)%nat ->
  flag = (k =? 6)%nat.
Proof.
  intros Hrun Hzero Hk Hle. unfold run_flags in Hrun.
  destruct (run_calls _ calls st) as [[st' tr']|] eqn:Hcalls;
    [|discriminate].
  injection Hrun as ->.
  apply run_calls_flags in Hcalls. rewrite Hzero in Hcalls.
  rewrite Hcalls in Hk. clear Hcalls.
  remember (length tr) as n eqn:Hn. clear Hn.
  do 7 (destruct n as [|n];
        [ cbn in Hk;
          repeat (destruct k as [|k]; cbn in Hk;
                  [ first [discriminate | injection Hk as <-; reflexivity]
                  | try discriminate ])
        | ]).
  cbn in Hk.
  do 7 (destruct k as [|k]; [injection Hk as <-; reflexivity|]).
  lia.
Qed.

End GenericLaser.

(** ** The order laws at the two instances *)

Lemma Qltb_lt (a b : Q) : Qltb a b = true <-> (a < b)%Q.
Proof.
  unfold Qltb. rewrite negb_true_iff, <- not_true_iff_false, Qle_bool_iff.
  split; [apply Qnot_le_lt | apply Qlt_not_le].
Qed.

Lemma Qltb_ge (a b : Q) : Qltb a b = false <-> (b <= a)%Q.
Proof.
  unfold Qltb. rewrite negb_false_iff, Qle_bool_iff. reflexivity.
Qed.

Lemma Qltb_asym (a b : Q) : Qltb a b = true -> Qltb b a = false.
Proof. rewrite Qltb_lt, Qltb_ge. apply Qlt_le_weak. Qed.

Lemma Qltb_trans (a b c : Q) :
  Qltb a b = true -> Qltb b c = true -> Qltb a c = true.
Proof. rewrite !Qltb_lt. apply Qlt_trans. Qed.

Lemma SFltb_asym (a b : spec_float) : SFltb a b = true -> SFltb b a = false.
Proof.
  unfold SFltb.
  destruct a as [sa|sa| |sa ma ea], b as [sb|sb| |sb mb eb]; sf_cases.
  all: rewrite (Z.compare_antisym ea eb);
    destruct (ea ?= eb)%Z; cbn; try congruence.
  all: rewrite (Pos.compare_antisym ma mb);
    destruct (ma ?= mb)%positive; cbn; congruence.
Qed.

Lemma Zcompare_trans_Lt (a b c : Z) :
  (a ?= b)%Z = Lt -> (b ?= c)%Z = Lt -> (a ?= c)%Z = Lt.
Proof. rewrite !Z.compare_lt_iff. lia. Qed.

Lemma Zcompare_trans_Gt (a b c : Z) :
  (a ?= b)%Z = Gt -> (b ?= c)%Z = Gt -> (a ?= c)%Z = Gt.
Proof. rewrite !Z.compare_gt_iff. lia. Qed.

Lemma Poscompare_trans_Lt (a b c : positive) :
  (a ?= b)%positive = Lt -> (b ?= c)%positive = Lt -> (a ?= c)%positive = Lt.
Proof. rewrite !Pos.compare_lt_iff. lia. Qed.

Lemma Poscompare_trans_Gt (a b c : positive) :
  (a ?= b)%positive = Gt -> (b ?= c)%positive = Gt -> (a ?= c)%positive = Gt.
Proof. rewrite !Pos.compare_gt_iff. lia. Qed.

Lemma SFltb_trans (a b c : spec_float) :
  SFltb a b = true -> SFltb b c = true -> SFltb a c = true.
Proof.
  unfold SFltb.
  destruct a as [sa|sa| |sa ma ea], b as [sb|sb| |sb mb eb],
    c as [sc|sc| |sc mc ec]; sf_cases.
  all: destruct (ea ?= eb)%Z eqn:H1; destruct (eb ?= ec)%Z eqn:H2; cbn;
    try congruence;
    try (apply Z.compare_eq in H1; subst);
    try (apply Z.compare_eq in H2; subst);
    rewrite ?H1, ?H2, ?Z.compare_refl,
      ?(Zcompare_trans_Lt _ _ _ H1 H2), ?(Zcompare_trans_Gt _ _ _ H1 H2);
    try reflexivity.
  all: destruct (ma ?= mb)%positive eqn:H3;
    destruct (mb ?= mc)%positive eqn:H4; cbn; try congruence;
    rewrite ?(Poscompare_trans_Lt _ _ _ H3 H4),
      ?(Poscompare_trans_Gt _ _ _ H3 H4);
    reflexivity.
Qed.

(** ** Properties of the binary32 filter *)

Section Binary32.

(** libm's [exp] at the two values that matter here (C99, Annex F.9.3.1:
    [exp(+inf)] is [+inf]; a NaN argument gives NaN). *)
Variable L : Libm spec_float.
Hypothesis exp_pos_infinity :
  m_exp L (S754_infinity false) = S754_infinity false.
Hypothesis exp_nan : m_exp L S754_nan = S754_nan.

Variable E : Externals spec_float.
Variable FLAGS_num_particles : nat.

Lemma sub_neg_infinity (x : spec_float) :
  SFsub prec32 emax32 x (S754_infinity true) = S754_infinity false
  \/ SFsub prec32 emax32 x (S754_infinity true) = S754_nan.
Proof. destruct x as [s|[|]| |s m e]; cbn; auto. Qed.


(** *** The pose estimate after a failed gate *)

Lemma add_nonfinite_r (x y : spec_float) :
  is_finite32 y = false -> is_finite32 (SFadd prec32 emax32 x y) = false.
Proof.
  destruct x as [sx|[|]| |sx mx ex], y as [sy|[|]| |sy my ey];
    cbn; congruence.
Qed.

Lemma add_nonfinite_l (x y : spec_float) :
  is_finite32 x = false -> is_finite32 (SFadd prec32 emax32 x y) = false.
Proof.
  destruct x as [sx|[|]| |sx mx ex], y as [sy|[|]| |sy my ey];
    cbn; congruence.
Qed.

Lemma mul_nonfinite_r (x y : spec_float) :
  is_finite32 y = false -> is_finite32 (SFmul prec32 emax32 x y) = false.
Proof.
  destruct x as [sx|sx| |sx mx ex], y as [sy|sy| |sy my ey];
    cbn; congruence.
Qed.

Lemma mul_nonfinite_l (x y : spec_float) :
  is_finite32 x = false -> is_finite32 (SFmul prec32 emax32 x y) = false.
Proof.
  destruct x as [sx|sx| |sx mx ex], y as [sy|sy| |sy my ey];
    cbn; congruence.
Qed.

Lemma div_nonfinite (x y : spec_float) :
  is_finite32 x = false -> is_finite32 y = false ->
  SFdiv prec32 emax32 x y = S754_nan.
Proof.
  destruct x as [sx|sx| |sx mx ex], y as [sy|sy| |sy my ey];
    cbn; congruence.
Qed.

Lemma normalized_weight_nonfinite (st : FilterState E)
    (particle : Particle spec_float) :
  max_log_particle_weight_ st = S754_infinity true ->
  is_finite32 (normalized_weight (SC := binary32_scalar L) st particle)
  = false.
Proof.
  intro Hmax. unfold normalized_weight. rewrite Hmax.
  cbn [sub fexp binary32_scalar].
  destruct (sub_neg_infinity (log_weight particle)) as [-> | ->].
  - rewrite exp_pos_infinity. reflexivity.
  - rewrite exp_nan. reflexivity.
Qed.

(** Sums that are not finite stay so while weights that are not finite are
    added. *)
Lemma weighted_sums_nonfinite (st : FilterState E) :
  max_log_particle_weight_ st = S754_infinity true ->
  forall (ps : list (Particle spec_float)) (ls : Vector2f spec_float)
         (a w : spec_float),
    is_finite32 (vx ls) = false -> is_finite32 (vy ls) = false ->
    is_finite32 a = false -> is_finite32 w = false ->
    let '(ls', a', w') :=
      weighted_sums (SC := binary32_scalar L) st ps ls a w in
    is_finite32 (vx ls') = false /\ is_finite32 (vy ls') = false
    /\ is_finite32 a' = false /\ is_finite32 w' = false.
Proof.
  intro Hmax. induction ps as [|p ps IH]; intros ls a w Hx Hy Ha Hw.
  - cbn. auto.
  - cbn [weighted_sums]. apply IH; cbn; apply add_nonfinite_l; assumption.
Qed.

(** X2.  After an [ObserveLaser] call whose motion gate fails, the pose
    [GetLocation] returns is NaN in every component. *)
Theorem GetLocation_after_failed_gate_is_nan
    (fuel : nat) (ranges : list spec_float)
    (range_min range_max angle_min angle_max : spec_float)
    (st : FilterState E) :
  motion_gate (SC := binary32_scalar L) st = false ->
  exists st',
    ObserveLaser (SC := binary32_scalar L) (INF := binary32_infinity)
      FLAGS_num_particles fuel ranges range_min range_max angle_min
      angle_max st = Some st'
    /\ GetLocation (SC := binary32_scalar L) st'
       = (Vec2 S754_nan S754_nan, S754_nan).
Proof.
  intro Hgate. unfold ObserveLaser.
  rewrite ObserveLaser_traced_gate_closed by exact Hgate.
  eexists. split; [reflexivity|]. cbn [option_map fst].
  set (st' := set_max_log_particle_weight st neg_infinity).
  assert (Hmax : max_log_particle_weight_ st' = S754_infinity true)
    by reflexivity.
  unfold GetLocation.
  destruct (particles_ st') as [|p ps]; [reflexivity|].
  cbn [weighted_sums].
  pose proof (@normalized_weight_nonfinite st' p Hmax) as Hp.
  pose proof (@weighted_sums_nonfinite st' Hmax ps) as Hsums.
  match goal with
  | |- context [weighted_sums st' ps ?ls ?a ?w] =>
      specialize (Hsums ls a w)
  end.
  destruct (weighted_sums _ ps _ _ _) as [[ls a] w].
  destruct Hsums as (Hx & Hy & Ha & Hw).
  1-4: cbn [vx vy vadd vtimes add mul binary32_scalar];
    apply add_nonfinite_r; try apply mul_nonfinite_r; exact Hp.
  unfold vdiv. cbn [div binary32_scalar].
  rewrite !div_nonfinite by assumption. reflexivity.
Qed.

End Binary32.

(** ** [Resample] in exact arithmetic *)

Section Exact.

Variable sqrtQ : Q -> Q.
Variable L : Libm Q.

(** [exp] is never negative (in floating point it can be zero). *)
Hypothesis exp_nonneg : forall x : Q, (0 <= m_exp L x)%Q.

Variable E : Externals Q.
Variable FLAGS_num_particles : nat.

Let SQ : Scalar Q := exact_scalar sqrtQ L.
#[local] Existing Instance SQ.

Section Loop.

(** The quantities of one [Resample] call: the total weight [S], the step
    [d = S/N] and the draw [u] in [[0, d)]. *)
Variables (S d u : Q).
Hypothesis S_is_N_steps :
  (S == d * inject_Z (Z.of_nat FLAGS_num_particles))%Q.
Hypothesis u_range : (0 <= u /\ u < d)%Q.

Let emitted : nat -> Q -> Prop := resample_invariant S d u.

Lemma emitted_bound (k : nat) (sp : Q) :
  emitted k sp -> (k <= FLAGS_num_particles)%nat.
Proof.
  intros [Hsp Hlt].
  destruct (Nat.le_gt_cases k FLAGS_num_particles) as [Hle | Hgt];
    [exact Hle|].
  exfalso.
  assert (Hq : (inject_Z (Z.of_nat FLAGS_num_particles) + 1
                <= inject_Z (Z.of_nat k))%Q).
  { rewrite <- (inject_Z_plus _ 1). rewrite <- Zle_Qle. lia. }
  destruct u_range as [Hu0 Hu1].
  nra.
Qed.

Lemma emitted_start : emitted 0 u.
Proof.
  destruct u_range as [Hu0 Hu1]. split.
  - cbn. ring.
  - assert (0 <= inject_Z (Z.of_nat FLAGS_num_particles))%Q
      by (change 0%Q with (inject_Z 0); rewrite <- Zle_Qle; lia).
    nra.
Qed.

Lemma emitted_all (k : nat) (sp : Q) :
  emitted k sp -> (S <= sp)%Q -> k = FLAGS_num_particles.
Proof.
  intros Hk Hle. pose proof (emitted_bound Hk) as Hub.
  destruct Hk as [Hsp Hlt].
  destruct (Nat.eq_dec k FLAGS_num_particles) as [Heq | Hne]; [exact Heq|].
  exfalso.
  assert (Hq : (inject_Z (Z.of_nat k) + 1
                <= inject_Z (Z.of_nat FLAGS_num_particles))%Q).
  { rewrite <- (inject_Z_plus _ 1). rewrite <- Zle_Qle. lia. }
  destruct u_range as [Hu0 Hu1].
  nra.
Qed.

(** The [while] loop returns within [N + 1 - k] iterations. *)
Lemma emit_copies_exact (breakpoint : Q) (p : Particle Q) :
  (breakpoint <= S)%Q ->
  forall (fuel : nat) (sp : Q) (out : list (Particle Q)),
    emitted (length out) sp ->
    (FLAGS_num_particles < fuel + length out)%nat ->
    exists out' sp',
      emit_copies fuel breakpoint p sp d out = Some (out', sp')
      /\ emitted (length out') sp'
      /\ (breakpoint <= sp')%Q
      /\ (sp <= sp')%Q.
Proof.
  intro Hbp. induction fuel as [|fuel IH]; intros sp out Hinv Hfuel.
  - apply emitted_bound in Hinv. lia.
  - cbn [emit_copies]. change (ltb sp breakpoint) with (Qltb sp breakpoint).
    destruct (Qltb sp breakpoint) eqn:Hlt.
    + apply Qltb_lt in Hlt.
      destruct (IH (sp + d)%Q (out ++ [p]))
        as (out' & sp' & Hrun & Hinv' & Hge & Hmono).
      * destruct Hinv as [Hsp Hs]. rewrite length_app, Nat.add_1_r. split.
        -- rewrite Nat2Z.inj_succ, <- Z.add_1_r, inject_Z_plus.
           rewrite Hsp. cbn. ring.
        -- lra.
      * rewrite length_app. cbn. lia.
      * exists out', sp'.
        split; [exact Hrun|]. split; [exact Hinv'|]. split; lra.
    + apply Qltb_ge in Hlt. exists out, sp.
      split; [reflexivity|]. split; [exact Hinv|]. split; lra.
Qed.

Lemma resample_loop_exact (fuel : nat) :
  (FLAGS_num_particles < fuel)%nat ->
  forall (breakpoints : list Q) (ps : list (Particle Q)) (sp : Q)
         (out : list (Particle Q)),
    length breakpoints = length ps ->
    Forall (fun b => (b <= S)%Q) breakpoints ->
    emitted (length out) sp ->
    exists out' sp',
      resample_loop fuel breakpoints ps sp d out = Some out'
      /\ emitted (length out') sp'
      /\ (sp <= sp')%Q
      /\ (breakpoints <> [] -> (last breakpoints 0 <= sp')%Q).
Proof.
  intro Hfuel.
  induction breakpoints as [|b bs IH]; intros ps sp out Hlen Hall Hinv.
  - exists out, sp.
    split; [reflexivity|]. split; [exact Hinv|]. split; [lra|congruence].
  - destruct ps as [|p ps]; [discriminate|].
    inversion Hall as [|? ? Hb Hbs]; subst.
    destruct (@emit_copies_exact b p Hb fuel sp out Hinv)
      as (out1 & sp1 & Hrun1 & Hinv1 & Hge1 & Hmono1); [lia|].
    destruct (IH ps sp1 out1)
      as (out' & sp' & Hrun & Hinv' & Hmono & Hlast); try assumption.
    { cbn in Hlen. lia. }
    exists out', sp'. cbn [resample_loop]. rewrite Hrun1.
    split; [exact Hrun|]. split; [exact Hinv'|]. split; [lra|].
    intros _. destruct bs as [|b' bs'].
    + cbn. lra.
    + change (last (b :: b' :: bs') 0%Q) with (last (b' :: bs') 0%Q).
      apply Hlast. discriminate.
Qed.

End Loop.

Lemma weights_sum_mono (max_log : Q) (ps : list (Particle Q)) :
  forall acc : Q,
    (acc <= fold_left
              (fun a p => add a (fexp (sub (log_weight p) max_log)))
              ps acc)%Q.
Proof.
  induction ps as [|p ps IH]; intro acc; cbn [fold_left].
  - lra.
  - eapply Qle_trans; [|apply IH]. cbn.
    pose proof (exp_nonneg (log_weight p - max_log)). lra.
Qed.

Lemma breakpoints_below_total (max_log : Q) (ps : list (Particle Q)) :
  forall acc : Q,
    Forall
      (fun b =>
         (b <= fold_left
                 (fun a p => add a (fexp (sub (log_weight p) max_log)))
                 ps acc)%Q)
      (breakpoints_from max_log ps acc).
Proof.
  induction ps as [|p ps IH]; intro acc; cbn [breakpoints_from fold_left].
  - constructor.
  - constructor; [apply weights_sum_mono | apply IH].
Qed.

Lemma breakpoints_last (max_log : Q) (ps : list (Particle Q)) :
  forall acc : Q,
    ps <> [] ->
    last (breakpoints_from max_log ps acc) 0%Q
    = fold_left (fun a p => add a (fexp (sub (log_weight p) max_log)))
        ps acc.
Proof.
  induction ps as [|p ps IH]; intros acc Hne; [congruence|].
  destruct ps as [|p' ps']; [reflexivity|].
  cbn [breakpoints_from fold_left] in *.
  rewrite <- IH by discriminate. reflexivity.
Qed.

Lemma breakpoints_length (max_log : Q) (ps : list (Particle Q)) :
  forall acc : Q, length (breakpoints_from max_log ps acc) = length ps.
Proof.
  induction ps as [|p ps IH]; intro acc; cbn;
    [reflexivity | rewrite IH; reflexivity].
Qed.

(** Without rounding the count is right.  In exact arithmetic, for a
    particle set of the configured size N
    with total normalized weight S > 0 and a uniform draw u in [[0, S/N)],
    [Resample] returns (with fuel above N) and leaves exactly N
    particles. *)
Theorem Resample_exact_emits_N (fuel : nat) (st : FilterState E) :
  length (particles_ st) = FLAGS_num_particles ->
  (FLAGS_num_particles < fuel)%nat ->
  (0 < normalized_sum_of (max_log_particle_weight_ st) (particles_ st))%Q ->
  (0 <= sample_point_of FLAGS_num_particles st)%Q ->
  (sample_point_of FLAGS_num_particles st
   < division_size_of FLAGS_num_particles st)%Q ->
  exists st',
    Resample FLAGS_num_particles fuel st = Some st'
    /\ length (particles_ st') = FLAGS_num_particles.
Proof.
  intros Hlen Hfuel HS Hu0 Hu1.
  unfold Resample.
  destruct (particles_ st) as [|p ps] eqn:Hps.
  { exists st. split; [reflexivity|]. rewrite Hps. exact Hlen. }
  destruct (odom_initialized_ st); cbn [negb].
  2:{ exists st. split; [reflexivity|]. rewrite Hps. exact Hlen. }
  assert (Hnw :
    normalize_weights (max_log_particle_weight_ st) FLAGS_num_particles
      (p :: ps) zero
    = Some (map (normalize_particle (max_log_particle_weight_ st)) (p :: ps),
            breakpoints_from (max_log_particle_weight_ st) (p :: ps) zero,
            fold_left
              (fun a q =>
                 add a
                   (fexp (sub (log_weight q) (max_log_particle_weight_ st))))
              (p :: ps) zero))
    by (rewrite <- Hlen; apply normalize_weights_exact).
  rewrite Hnw. clear Hnw.
  unfold sample_point_of, division_size_of, normalized_sum_of in *.
  rewrite Hps in *.
  cbn [rng_ set_particles].
  set (S := fold_left _ (p :: ps) zero) in *.
  set (d := div S (of_nat FLAGS_num_particles)) in *.
  destruct (UniformRandom zero d (rng_ st)) as [u rng'] eqn:Hu.
  cbn [fst] in Hu0, Hu1.
  assert (HN : (0 < inject_Z (Z.of_nat FLAGS_num_particles))%Q).
  { change 0%Q with (inject_Z 0). rewrite <- Zlt_Qlt.
    rewrite <- Hlen. cbn [length]. lia. }
  assert (Hd : (d == S / inject_Z (Z.of_nat FLAGS_num_particles))%Q)
    by reflexivity.
  assert (HSd : (S == d * inject_Z (Z.of_nat FLAGS_num_particles))%Q).
  { rewrite Hd. field. lra. }
  assert (Hdpos : (0 < d)%Q).
  { rewrite Hd. apply Qlt_shift_div_l; [exact HN | lra]. }
  replace (eqb d zero) with false.
  2:{ symmetry. change (Qeq_bool d 0 = false).
      apply not_true_iff_false. rewrite Qeq_bool_iff. lra. }
  destruct (@resample_loop_exact S d u HSd (conj Hu0 Hu1) fuel Hfuel
              (breakpoints_from (max_log_particle_weight_ st) (p :: ps) zero)
              (map (normalize_particle (max_log_particle_weight_ st))
                   (p :: ps))
              u [])
    as (out' & sp' & Hrun & Hinv & _ & Hlast).
  - rewrite breakpoints_length, length_map. reflexivity.
  - apply breakpoints_below_total.
  - apply emitted_start; [exact HSd | split; assumption].
  - rewrite Hrun. eexists. split; [reflexivity|].
    cbn [particles_ set_particles].
    apply (emitted_all HSd (conj Hu0 Hu1) Hinv).
    assert (Hne :
      breakpoints_from (max_log_particle_weight_ st) (p :: ps) zero <> [])
      by discriminate.
    apply Hlast in Hne. rewrite breakpoints_last in Hne by discriminate.
    exact Hne.
Qed.

End Exact.

(** ** Further properties of the entry points

    What the functions of particle_filter.cc guard against, what they keep
    and what they leave undefined. *)

Section GenericMore.

Context {F : Type} {SC : Scalar F} {E : Externals F}.

Variable FLAGS_num_particles : nat.

(** *** Odometry *)

Lemma UpdateParticleLocation_log_weight
    (d : Vector2f F) (dtheta : F) (p : Particle F) (rng : Random) :
  log_weight (fst (UpdateParticleLocation d dtheta p rng)) = log_weight p.
Proof.
  unfold UpdateParticleLocation.
  destruct (Gaussian _ _ rng) as [nx r1].
  destruct (Gaussian _ _ r1) as [ny r2].
  destruct (Gaussian _ _ r2) as [nr r3].
  reflexivity.
Qed.

Lemma propagate_log_weights
    (d : Vector2f F) (prev_angle angle_diff : F) (ps : list (Particle F)) :
  forall rng,
    map (@log_weight F) (fst (propagate d prev_angle angle_diff ps rng))
    = map (@log_weight F) ps.
Proof.
  induction ps as [|p ps IH]; intro rng; cbn [propagate].
  - reflexivity.
  - pose proof
      (UpdateParticleLocation_log_weight
         (rotate (AngleDiff (angle p) prev_angle) d) angle_diff p rng) as Hp.
    destruct (UpdateParticleLocation _ _ p rng) as [p' r1].
    specialize (IH r1).
    destruct (propagate d prev_angle angle_diff ps r1) as [ps' r2].
    cbn [fst map] in *. rewrite Hp, IH. reflexivity.
Qed.

(** X3.  Whatever branch it takes, [ObserveOdometry] leaves the number of
    particles and every log-weight as they were, and ends with the baseline
    at the reported pose and [odom_initialized_] set; the map and the stored
    maximum are not touched. *)
Theorem ObserveOdometry_keeps_weights_and_sets_baseline
    (odom_loc : Vector2f F) (odom_angle : F) (st : FilterState E) :
  map (@log_weight F) (particles_ (ObserveOdometry odom_loc odom_angle st))
  = map (@log_weight F) (particles_ st)
  /\ length (particles_ (ObserveOdometry odom_loc odom_angle st))
     = length (particles_ st)
  /\ prev_odom_loc_ (ObserveOdometry odom_loc odom_angle st) = odom_loc
  /\ prev_odom_angle_ (ObserveOdometry odom_loc odom_angle st) = odom_angle
  /\ odom_initialized_ (ObserveOdometry odom_loc odom_angle st) = true
  /\ map_ (ObserveOdometry odom_loc odom_angle st) = map_ st
  /\ max_log_particle_weight_ (ObserveOdometry odom_loc odom_angle st)
     = max_log_particle_weight_ st.
Proof.
  assert (Hw :
    map (@log_weight F) (particles_ (ObserveOdometry odom_loc odom_angle st))
    = map (@log_weight F) (particles_ st)
    /\ prev_odom_loc_ (ObserveOdometry odom_loc odom_angle st) = odom_loc
    /\ prev_odom_angle_ (ObserveOdometry odom_loc odom_angle st) = odom_angle
    /\ odom_initialized_ (ObserveOdometry odom_loc odom_angle st) = true
    /\ map_ (ObserveOdometry odom_loc odom_angle st) = map_ st
    /\ max_log_particle_weight_ (ObserveOdometry odom_loc odom_angle st)
       = max_log_particle_weight_ st).
  { unfold ObserveOdometry.
    destruct (odom_gate odom_loc st) eqn:Hgate.
    - pose proof
        (propagate_log_weights (vsub odom_loc (prev_odom_loc_ st))
           (prev_odom_angle_ st)
           (AngleDiff odom_angle (prev_odom_angle_ st))
           (particles_ st) (rng_ st)) as Hp.
      destruct (propagate _ _ _ _ _) as [ps rng].
      unfold odom_gate in Hgate. apply andb_true_iff in Hgate.
      destruct Hgate as [Hinit _].
      cbn [fst] in Hp. cbn. repeat split; assumption.
    - cbn. repeat split. }
  destruct Hw as (Hw & H1 & H2 & H3 & H4 & H5).
  repeat split; try assumption.
  rewrite <- (length_map (@log_weight F)), Hw. apply length_map.
Qed.

(** *** Initialize *)

Lemma init_particles_spec (n : nat) (l : Vector2f F) (a : F) :
  forall (ps : list (Particle F)) (rng : Random),
    exists new,
      fst (init_particles n l a ps rng) = ps ++ new
      /\ length new = n
      /\ Forall (fun p => log_weight p = zero) new.
Proof.
  induction n as [|n IH]; intros ps rng; cbn [init_particles].
  - exists []. rewrite app_nil_r. repeat split. constructor.
  - destruct (Gaussian (vx l) _ rng) as [x r1].
    destruct (Gaussian (vy l) _ r1) as [y r2].
    destruct (Gaussian a _ r2) as [th r3].
    destruct (IH (ps ++ [mkParticle (Vec2 x y) th zero]) r3)
      as (new & Hnew & Hlen & Hall).
    exists (mkParticle (Vec2 x y) th zero :: new).
    rewrite Hnew, <- app_assoc. cbn. repeat split.
    + rewrite Hlen. reflexivity.
    + constructor; [reflexivity | exact Hall].
Qed.

(** X4.  [Initialize] discards the particles it finds and leaves exactly
    [FLAGS_num_particles] particles, all with log-weight zero; the map is
    the loaded one, the baseline and the last update are at the given pose,
    the counter is zero and [odom_initialized_] is false.  The stored
    maximum log-weight is not reset. *)
Theorem Initialize_seeds_N_particles
    (loaded : list (line2f F)) (l : Vector2f F) (a : F)
    (st : FilterState E) :
  length (particles_ (Initialize FLAGS_num_particles loaded l a st))
  = FLAGS_num_particles
  /\ Forall (fun p => log_weight p = zero)
       (particles_ (Initialize FLAGS_num_particles loaded l a st))
  /\ map_ (Initialize FLAGS_num_particles loaded l a st) = loaded
  /\ prev_odom_loc_ (Initialize FLAGS_num_particles loaded l a st) = l
  /\ prev_odom_angle_ (Initialize FLAGS_num_particles loaded l a st) = a
  /\ last_update_loc_ (Initialize FLAGS_num_particles loaded l a st) = l
  /\ updates_since_last_resample_
       (Initialize FLAGS_num_particles loaded l a st) = 0%Z
  /\ odom_initialized_ (Initialize FLAGS_num_particles loaded l a st) = false
  /\ max_log_particle_weight_ (Initialize FLAGS_num_particles loaded l a st)
     = max_log_particle_weight_ st.
Proof.
  unfold Initialize.
  match goal with
  | |- context [init_particles ?n ?l ?a ?ps ?rng] =>
      destruct (init_particles_spec n l a ps rng) as (new & Hnew & Hlen & Hall);
      destruct (init_particles n l a ps rng) as [ps' rng']
  end.
  cbn in Hnew. subst ps'. cbn. repeat split; assumption.
Qed.

(** *** Resample *)

Lemma Resample_keeps_odometry (fuel : nat) (st st' : FilterState E) :
  Resample FLAGS_num_particles fuel st = Some st' ->
  prev_odom_loc_ st' = prev_odom_loc_ st
  /\ prev_odom_angle_ st' = prev_odom_angle_ st
  /\ odom_initialized_ st' = odom_initialized_ st
  /\ map_ st' = map_ st
  /\ updates_since_last_resample_ st' = updates_since_last_resample_ st
  /\ last_update_loc_ st' = last_update_loc_ st.
Proof.
  unfold Resample. intro H.
  destruct (particles_ st) as [|p ps].
  { injection H as <-. repeat split. }
  destruct (negb (odom_initialized_ st)).
  { injection H as <-. repeat split. }
  destruct (normalize_weights _ _ _ _) as [[[ps' bps] tot]|]; [|discriminate].
  destruct (UniformRandom _ _ _) as [sp rng'].
  destruct (eqb _ _).
  { injection H as <-. repeat split. }
  destruct (resample_loop _ _ _ _ _ _) as [new|]; [|discriminate].
  injection H as <-. repeat split.
Qed.

Lemma emit_copies_In (breakpoint : F) (p : Particle F) (d : F) :
  forall (fuel : nat) (sp : F) (out out' : list (Particle F)) (sp' : F),
    emit_copies fuel breakpoint p sp d out = Some (out', sp') ->
    forall q, In q out' -> In q out \/ q = p.
Proof.
  induction fuel as [|fuel IH]; intros sp out out' sp' H q Hq;
    cbn [emit_copies] in H; [discriminate|].
  destruct (ltb sp breakpoint).
  - destruct (IH _ _ _ _ H q Hq) as [Hin|Heq]; [|right; exact Heq].
    apply in_app_or in Hin. destruct Hin as [Hin|[Heq|[]]].
    + left; exact Hin.
    + right; symmetry; exact Heq.
  - injection H as <- <-. left; exact Hq.
Qed.

Lemma resample_loop_In (fuel : nat) (d : F) :
  forall (bps : list F) (ps : list (Particle F)) (sp : F)
         (out out' : list (Particle F)),
    resample_loop fuel bps ps sp d out = Some out' ->
    forall q, In q out' -> In q out \/ In q ps.
Proof.
  induction bps as [|bp bps IH]; intros ps sp out out' H q Hq.
  - injection H as <-. left; exact Hq.
  - destruct ps as [|p ps]; cbn [resample_loop] in H.
    + injection H as <-. left; exact Hq.
    + destruct (emit_copies fuel bp p sp d out) as [[out1 sp1]|] eqn:He;
        [|discriminate].
      destruct (IH _ _ _ _ H q Hq) as [Hin|Hin].
      * destruct (emit_copies_In _ _ _ _ _ _ He q Hin) as [Ho|Hp].
        -- left; exact Ho.
        -- right; left; symmetry; exact Hp.
      * right; right; exact Hin.
Qed.

Lemma emit_copies_Forall (P : Particle F -> Prop) (breakpoint : F)
    (p : Particle F) (d : F) :
  forall (fuel : nat) (sp : F) (out out' : list (Particle F)) (sp' : F),
    (ltb sp breakpoint = true -> P p) ->
    Forall P out ->
    emit_copies fuel breakpoint p sp d out = Some (out', sp') ->
    Forall P out' /\ ltb sp' breakpoint = false.
Proof.
  induction fuel as [|fuel IH]; intros sp out out' sp' Hp Hout H;
    cbn [emit_copies] in H; [discriminate|].
  destruct (ltb sp breakpoint) eqn:Hcmp.
  - apply IH in H; [exact H | intros _; auto |].
    apply Forall_app. split; [exact Hout|]. constructor; [auto|constructor].
  - injection H as <- <-. split; assumption.
Qed.
Lemma normalize_weights_In (max_log : F) :
  forall (n : nat) (ps : list (Particle F)) (acc : F)
         (ps' : list (Particle F)) (bps : list F) (tot : F),
    normalize_weights max_log n ps acc = Some (ps', bps, tot) ->
    forall q, In q ps' ->
      exists p, In p ps /\ (q = p \/ q = normalize_particle max_log p).
Proof.
  induction n as [|n IH]; intros ps acc ps' bps tot H q Hq;
    cbn [normalize_weights] in H.
  - injection H as <- _ _. exists q. split; [exact Hq | left; reflexivity].
  - destruct ps as [|p ps]; [discriminate|].
    destruct (normalize_weights max_log n ps _) as [[[r b] t]|] eqn:Hn;
      [|discriminate].
    injection H as <- _ _. destruct Hq as [<-|Hq].
    + exists p. split; [left; reflexivity | right; reflexivity].
    + destruct (IH _ _ _ _ _ Hn q Hq) as (p0 & Hin & Hp0).
      exists p0. split; [right; exact Hin | exact Hp0].
Qed.

Lemma Resample_In (fuel : nat) (st st' : FilterState E) :
  Resample FLAGS_num_particles fuel st = Some st' ->
  forall q, In q (particles_ st') ->
    exists p, In p (particles_ st)
      /\ (q = p \/ q = normalize_particle (max_log_particle_weight_ st) p).
Proof.
  unfold Resample. intros H q Hq.
  destruct (particles_ st) as [|p0 ps0] eqn:Hps.
  { injection H as <-. rewrite Hps in Hq. destruct Hq. }
  destruct (negb (odom_initialized_ st)).
  { injection H as <-. rewrite Hps in Hq.
    exists q. split; [exact Hq | left; reflexivity]. }
  destruct (normalize_weights _ _ _ _) as [[[ps' bps] tot]|] eqn:Hn;
    [|discriminate].
  destruct (UniformRandom _ _ _) as [sp rng'].
  destruct (eqb _ _).
  { injection H as <-. cbn in Hq.
    exact (normalize_weights_In _ _ _ _ Hn q Hq). }
  destruct (resample_loop _ _ _ _ _ _) as [new|] eqn:Hl; [|discriminate].
  injection H as <-. cbn in Hq.
  destruct (resample_loop_In _ _ _ _ _ _ Hl q Hq) as [[]|Hin].
  exact (normalize_weights_In _ _ _ _ Hn q Hin).
Qed.

(** X5.  [Resample] invents no particle: every particle it leaves is a
    particle it found, unchanged or with the stored maximum subtracted from
    its log-weight.  The baseline, the flag, the map, the counter and the
    last update are as before. *)
Theorem Resample_emits_only_input_particles
    (fuel : nat) (st st' : FilterState E) :
  Resample FLAGS_num_particles fuel st = Some st' ->
  (forall q, In q (particles_ st') ->
     exists p, In p (particles_ st)
       /\ (q = p \/ q = normalize_particle (max_log_particle_weight_ st) p))
  /\ prev_odom_loc_ st' = prev_odom_loc_ st
  /\ prev_odom_angle_ st' = prev_odom_angle_ st
  /\ odom_initialized_ st' = odom_initialized_ st
  /\ map_ st' = map_ st
  /\ updates_since_last_resample_ st' = updates_since_last_resample_ st
  /\ last_update_loc_ st' = last_update_loc_ st.
Proof.
  intro H. split.
  - exact (Resample_In _ _ H).
  - exact (Resample_keeps_odometry _ _ H).
Qed.

(** X6.  With initialized odometry and a particle vector that is not empty
    but shorter than [FLAGS_num_particles], [Resample] reads [particles_[i]]
    past the end: the behaviour is undefined. *)
Theorem Resample_with_too_few_particles_reads_past_end
    (fuel : nat) (st : FilterState E) :
  particles_ st <> [] ->
  odom_initialized_ st = true ->
  (length (particles_ st) < FLAGS_num_particles)%nat ->
  Resample FLAGS_num_particles fuel st = None.
Proof.
  intros Hne Hinit Hlen. unfold Resample.
  destruct (particles_ st) as [|p ps] eqn:Hps; [contradiction Hne; reflexivity|].
  rewrite Hinit. cbn [negb].
  rewrite normalize_weights_short by exact Hlen. reflexivity.
Qed.

(** *** Update *)

Lemma Update_keeps_pose (st : FilterState E) (ranges : list F)
    (range_min range_max angle_min angle_max : F) (p p' : Particle F) :
  Update st ranges range_min range_max angle_min angle_max p = Some p' ->
  loc p' = loc p /\ angle p' = angle p.
Proof.
  unfold Update. intro H.
  destruct (negb (odom_initialized_ st)).
  { injection H as <-. split; reflexivity. }
  destruct (length (GetPredictedPointCloud _ _ _ _ _ _ _ _)); [discriminate|].
  destruct (trim_ranges _ _ _); [|discriminate].
  destruct (weight_loop _ _ _ _ _ _ _ _ _); [|discriminate].
  injection H as <-. split; reflexivity.
Qed.

Lemma GetPredictedPointCloud_length (lines : list (line2f F))
    (l : Vector2f F) (a : F) (num_ranges : nat)
    (range_min range_max angle_min angle_max : F) :
  length (GetPredictedPointCloud lines l a num_ranges range_min range_max
            angle_min angle_max) = (num_ranges / 10)%nat.
Proof. unfold GetPredictedPointCloud. rewrite length_map. apply length_seq. Qed.

Lemma Update_short_scan (st : FilterState E) (ranges : list F)
    (range_min range_max angle_min angle_max : F) (p : Particle F) :
  odom_initialized_ st = true ->
  (length ranges < 10)%nat ->
  Update st ranges range_min range_max angle_min angle_max p = None.
Proof.
  intros Hinit Hlen. unfold Update. rewrite Hinit. cbn [negb].
  rewrite GetPredictedPointCloud_length, Nat.div_small by exact Hlen.
  reflexivity.
Qed.

End GenericMore.

Section GenericLaserMore.

Context {F : Type} {SC : Scalar F} {E : Externals F} {INF : Infinity F}.

Variable FLAGS_num_particles : nat.

Lemma update_all_keeps_poses (st : FilterState E) (ranges : list F)
    (range_min range_max angle_min angle_max : F) :
  forall (ps ps' : list (Particle F)) (m m' : F),
    update_all st ranges range_min range_max angle_min angle_max ps m
    = Some (ps', m') ->
    Forall2 (fun q p => loc q = loc p /\ angle q = angle p) ps' ps.
Proof.
  induction ps as [|p ps IH]; intros ps' m m' H; cbn [update_all] in H.
  - injection H as <- _. constructor.
  - destruct (Update st ranges range_min range_max angle_min angle_max p)
      as [p'|] eqn:Hu; [|discriminate].
    destruct (update_all _ _ _ _ _ _ ps _) as [[ps'' m'']|] eqn:Hr;
      [|discriminate].
    injection H as <- _. constructor.
    + exact (Update_keeps_pose _ _ _ _ _ _ _ Hu).
    + exact (IH _ _ _ Hr).
Qed.

Lemma update_all_uninitialized (st : FilterState E) (ranges : list F)
    (range_min range_max angle_min angle_max : F) :
  odom_initialized_ st = false ->
  forall (ps : list (Particle F)) (m : F),
    exists m',
      update_all st ranges range_min range_max angle_min angle_max ps m
      = Some (ps, m').
Proof.
  intros Hinit. induction ps as [|p ps IH]; intro m; cbn [update_all].
  - exists m. reflexivity.
  - unfold Update. rewrite Hinit. cbn [negb].
    match goal with
    | |- context [update_all _ _ _ _ _ _ ps ?m1] =>
        destruct (IH m1) as [m' ->]
    end.
    exists m'. reflexivity.
Qed.

Lemma Forall2_In_l {A B : Type} (R : A -> B -> Prop) (l : list A)
    (l' : list B) :
  Forall2 R l l' -> forall a, In a l -> exists b, In b l' /\ R a b.
Proof.
  induction 1 as [|a0 b0 l l' Hab _ IH]; intros a Ha; [destruct Ha|].
  destruct Ha as [<-|Ha].
  - exists b0. split; [left; reflexivity | exact Hab].
  - destruct (IH a Ha) as (b & Hb & Hr). exists b. split; [right|]; assumption.
Qed.

(** X7.  While [odom_initialized_] is false, [ObserveLaser] succeeds on
    every scan, also on one shorter than ten ranges, and leaves the
    particles and the random source as they were: [Update] returns before
    it looks at the scan and [Resample] before it draws. *)
Theorem ObserveLaser_before_odometry_keeps_particles
    (fuel : nat) (ranges : list F)
    (range_min range_max angle_min angle_max : F) (st : FilterState E) :
  odom_initialized_ st = false ->
  exists st',
    ObserveLaser FLAGS_num_particles fuel ranges range_min range_max
      angle_min angle_max st = Some st'
    /\ particles_ st' = particles_ st
    /\ rng_ st' = rng_ st
    /\ odom_initialized_ st' = false.
Proof.
  intro Hinit. unfold ObserveLaser, ObserveLaser_traced.
  destruct (motion_gate _).
  - destruct (update_all_uninitialized
                (set_max_log_particle_weight st neg_infinity) ranges
                range_min range_max angle_min angle_max Hinit
                (particles_ st) neg_infinity) as [m' Hm].
    cbn [particles_ max_log_particle_weight_ set_max_log_particle_weight].
    cbn [particles_ max_log_particle_weight_ set_max_log_particle_weight] in Hm.
    rewrite Hm.
    destruct (resample_due _).
    + unfold Resample. cbn. rewrite Hinit.
      destruct (particles_ st); cbn; eexists; repeat split; assumption.
    + cbn. eexists. repeat split. exact Hinit.
  - cbn. eexists. repeat split. exact Hinit.
Qed.

(** X8.  With initialized odometry, at least one particle and the motion
    gate open, a scan of fewer than ten ranges makes [Update] divide by
    [predicted_cloud.size() = 0]: the behaviour of [ObserveLaser] is
    undefined. *)
Theorem ObserveLaser_short_scan_divides_by_zero
    (fuel : nat) (ranges : list F)
    (range_min range_max angle_min angle_max : F) (st : FilterState E) :
  odom_initialized_ st = true ->
  motion_gate st = true ->
  particles_ st <> [] ->
  (length ranges < 10)%nat ->
  ObserveLaser FLAGS_num_particles fuel ranges range_min range_max
    angle_min angle_max st = None.
Proof.
  intros Hinit Hgate Hne Hlen. unfold ObserveLaser, ObserveLaser_traced.
  rewrite motion_gate_set_max, Hgate.
  cbn [particles_ set_max_log_particle_weight].
  destruct (particles_ st) as [|p ps]; [contradiction Hne; reflexivity|].
  cbn [update_all].
  rewrite Update_short_scan; [reflexivity | exact Hinit | exact Hlen].
Qed.

(** X9.  [ObserveLaser] moves no particle: every particle after the call
    has the location and the angle of a particle before the call, whether
    or not the call resampled.  The baseline, the flag and the map are as
    before. *)
Theorem ObserveLaser_creates_no_pose
    (fuel : nat) (ranges : list F)
    (range_min range_max angle_min angle_max : F)
    (st st' : FilterState E) :
  ObserveLaser FLAGS_num_particles fuel ranges range_min range_max
    angle_min angle_max st = Some st' ->
  (forall q, In q (particles_ st') ->
     exists p, In p (particles_ st) /\ loc q = loc p /\ angle q = angle p)
  /\ prev_odom_loc_ st' = prev_odom_loc_ st
  /\ prev_odom_angle_ st' = prev_odom_angle_ st
  /\ odom_initialized_ st' = odom_initialized_ st
  /\ map_ st' = map_ st.
Proof.
  unfold ObserveLaser, ObserveLaser_traced. intro H.
  destruct (motion_gate _).
  2:{ injection H as <-. split; [|repeat split].
      intros q Hq. exists q. repeat split. exact Hq. }
  cbn [particles_ max_log_particle_weight_ set_max_log_particle_weight] in H.
  destruct (update_all _ _ _ _ _ _ _ _) as [[ps m]|] eqn:Hu; [|discriminate].
  apply update_all_keeps_poses in Hu.
  destruct (resample_due _).
  - destruct (Resample _ _ _) as [st1|] eqn:Hr; [|discriminate].
    injection H as <-.
    pose proof Hr as Hk. apply Resample_keeps_odometry in Hk.
    destruct Hk as (H1 & H2 & H3 & H4 & _).
    split; [|cbn; rewrite H1, H2, H3, H4; repeat split].
    intros q Hq. cbn in Hq.
    eapply Resample_In in Hr; [|exact Hq].
    destruct Hr as (p1 & Hp1 & Hq1).
    cbn in Hp1.
    destruct (Forall2_In_l Hu p1 Hp1) as (p & Hp & Hl & Ha).
    exists p. split; [exact Hp|].
    destruct Hq1 as [->| ->]; cbn; split; assumption.
  - injection H as <-. split; [|repeat split].
    intros q Hq. cbn in Hq.
    destruct (Forall2_In_l Hu q Hq) as (p & Hp & Hl & Ha).
    exists p. repeat split; assumption.
Qed.

End GenericLaserMore.

Section GenericSessions.

Context {F : Type} {SC : Scalar F} {E : Externals F} {INF : Infinity F}.

Variable FLAGS_num_particles : nat.

Lemma ObserveLaser_gated_last_update
    (fuel : nat) (ranges : list F)
    (range_min range_max angle_min angle_max : F)
    (st st' : FilterState E) :
  motion_gate st = true ->
  ObserveLaser FLAGS_num_particles fuel ranges range_min range_max
    angle_min angle_max st = Some st' ->
  last_update_loc_ st' = prev_odom_loc_ st'.
Proof.
  unfold ObserveLaser, ObserveLaser_traced. intros Hgate H.
  rewrite motion_gate_set_max, Hgate in H.
  destruct (update_all _ _ _ _ _ _ _ _) as [[ps m]|]; [|discriminate].
  destruct (resample_due _).
  - destruct (Resample _ _ _) as [st1|] eqn:Hr; [|discriminate].
    injection H as <-.
    apply Resample_keeps_odometry in Hr.
    destruct Hr as (H1 & _ & _ & _ & _ & H6).
    cbn. rewrite H1, H6. reflexivity.
  - injection H as <-. reflexivity.
Qed.

Lemma counter_step_bound (c : Z) :
  (0 <= c <= 6)%Z -> (0 <= counter_step c <= 6)%Z.
Proof.
  unfold counter_step. destruct (5 <? c)%Z eqn:H; [lia|].
  apply Z.ltb_ge in H. lia.
Qed.

Lemma serve_counter_bound (r : Request) (st st' : FilterState E) :
  serve FLAGS_num_particles r st = Some st' ->
  (0 <= updates_since_last_resample_ st <= 6)%Z ->
  (0 <= updates_since_last_resample_ st' <= 6)%Z.
Proof.
  destruct r as [loaded l a | odom_loc odom_angle
                | fuel ranges rmin rmax amin amax]; cbn [serve]; intros H Hc.
  - injection H as <-. unfold Initialize.
    destruct (init_particles _ _ _ _ _) as [ps rng]. cbn. lia.
  - injection H as <-.
    destruct (odom_gate odom_loc st) eqn:Hgate.
    + rewrite ObserveOdometry_propagating_counter by exact Hgate. exact Hc.
    + unfold ObserveOdometry. rewrite Hgate. cbn. lia.
  - destruct (motion_gate st) eqn:Hgate.
    + unfold ObserveLaser in H.
      destruct (ObserveLaser_traced _ _ _ _ _ _ _ st) as [[st1 flag]|] eqn:Ht;
        [|discriminate].
      injection H as <-.
      eapply ObserveLaser_traced_gated in Ht; [|exact Hgate].
      destruct Ht as [_ ->]. apply counter_step_bound. exact Hc.
    + eapply ObserveLaser_ungated_counter in H; [|exact Hgate].
      rewrite H. exact Hc.
Qed.

(** X10.  Over any session the counter [updates_since_last_resample_]
    stays between 0 and 6: [Initialize] and a re-baselining set it to 0, a
    gated [ObserveLaser] call takes it from at most 5 to the next value or
    from 6 to 1, and nothing else changes it.  The [int] never overflows. *)
Theorem updates_since_last_resample_stays_within_six
    (rs : list Request) :
  forall st st' : FilterState E,
    serve_all FLAGS_num_particles rs st = Some st' ->
    (0 <= updates_since_last_resample_ st <= 6)%Z ->
    (0 <= updates_since_last_resample_ st' <= 6)%Z.
Proof.
  induction rs as [|r rs IH]; intros st st' H Hc; cbn [serve_all] in H.
  - injection H as <-. exact Hc.
  - destruct (serve _ r st) as [st1|] eqn:Hs; [|discriminate].
    apply (IH st1 st' H). exact (serve_counter_bound _ _ Hs Hc).
Qed.

End GenericSessions.

(** ** Further properties in binary32 *)

Section Binary32More.

Variable L : Libm spec_float.

#[local] Existing Instance binary32_infinity.

Let S32 : Scalar spec_float := binary32_scalar L.
#[local] Existing Instance S32.

Variable E : Externals spec_float.
Variable FLAGS_num_particles : nat.

Lemma sub_diag32 (x : spec_float) :
  SFsub prec32 emax32 x x = S754_zero false
  \/ SFsub prec32 emax32 x x = S754_nan.
Proof.
  destruct x as [s|s| |s m e].
  - left. destruct s; reflexivity.
  - right. destruct s; reflexivity.
  - right. reflexivity.
  - left. unfold SFsub. rewrite Z.sub_diag. reflexivity.
Qed.

Lemma norm_zero_displacement32 (l : Vector2f spec_float) :
  ltb (lit 0.1) (norm (vsub l l)) = false.
Proof.
  unfold norm, vsub. cbn [vx vy].
  cbn [sub mul add fsqrt ltb lit S32 binary32_scalar].
  destruct (sub_diag32 (vx l)) as [-> | ->];
    destruct (sub_diag32 (vy l)) as [-> | ->]; vm_compute; reflexivity.
Qed.

Lemma motion_gate_zero_displacement32 (st : FilterState E) :
  last_update_loc_ st = prev_odom_loc_ st -> motion_gate st = false.
Proof.
  intro H. unfold motion_gate. rewrite H.
  rewrite norm_zero_displacement32. reflexivity.
Qed.

(** X11.  In binary32, when the baseline is where the last update was
    ([last_update_loc_ = prev_odom_loc_]), the distance the motion gate
    looks at is 0 or NaN and [ObserveLaser] leaves every particle as it
    was, for every scan; the stored maximum is minus infinity. *)
Theorem ObserveLaser_without_displacement_keeps_particles
    (fuel : nat) (ranges : list spec_float)
    (range_min range_max angle_min angle_max : spec_float)
    (st : FilterState E) :
  last_update_loc_ st = prev_odom_loc_ st ->
  exists st',
    ObserveLaser FLAGS_num_particles fuel ranges range_min range_max
      angle_min angle_max st = Some st'
    /\ particles_ st' = particles_ st
    /\ max_log_particle_weight_ st' = S754_infinity true.
Proof.
  intro H. apply motion_gate_zero_displacement32 in H.
  unfold ObserveLaser.
  rewrite ObserveLaser_traced_gate_closed by exact H.
  eexists. repeat split.
Qed.

(** X12.  In binary32, of two [ObserveLaser] calls with no odometry
    message between them the second changes no particle, whatever the two
    scans are: the first call either failed the gate, and the gate is as
    before, or moved [last_update_loc_] to the baseline. *)
Theorem ObserveLaser_second_scan_keeps_particles
    (fuel fuel' : nat) (ranges ranges' : list spec_float)
    (range_min range_max angle_min angle_max : spec_float)
    (range_min' range_max' angle_min' angle_max' : spec_float)
    (st st1 : FilterState E) :
  ObserveLaser FLAGS_num_particles fuel ranges range_min range_max
    angle_min angle_max st = Some st1 ->
  exists st2,
    ObserveLaser FLAGS_num_particles fuel' ranges' range_min' range_max'
      angle_min' angle_max' st1 = Some st2
    /\ particles_ st2 = particles_ st1
    /\ max_log_particle_weight_ st2 = S754_infinity true.
Proof.
  intro H.
  assert (Hgate1 : motion_gate st1 = false).
  { destruct (motion_gate st) eqn:Hgate.
    - apply motion_gate_zero_displacement32.
      eapply ObserveLaser_gated_last_update; [exact Hgate | exact H].
    - unfold ObserveLaser in H.
      rewrite ObserveLaser_traced_gate_closed in H by exact Hgate.
      injection H as <-. exact Hgate. }
  unfold ObserveLaser.
  rewrite ObserveLaser_traced_gate_closed by exact Hgate1.
  eexists. repeat split.
Qed.

(** X13.  In binary32, after [Initialize], the first odometry message
    only sets the baseline, and a scan that follows it changes no particle:
    the particles are the ones [Initialize] drew, the odometry is
    initialized and the stored maximum is minus infinity. *)
Theorem ObserveLaser_after_first_odometry_keeps_particles
    (loaded : list (line2f spec_float)) (l odom_loc : Vector2f spec_float)
    (a odom_angle : spec_float) (fuel : nat) (ranges : list spec_float)
    (range_min range_max angle_min angle_max : spec_float)
    (st : FilterState E) :
  exists st',
    ObserveLaser FLAGS_num_particles fuel ranges range_min range_max
      angle_min angle_max
      (ObserveOdometry odom_loc odom_angle
         (Initialize FLAGS_num_particles loaded l a st)) = Some st'
    /\ particles_ st'
       = particles_ (Initialize FLAGS_num_particles loaded l a st)
    /\ odom_initialized_ st' = true
    /\ max_log_particle_weight_ st' = S754_infinity true.
Proof.
  pose proof (Initialize_clears_odom_initialized FLAGS_num_particles
                loaded l a st) as Hinit.
  set (st0 := Initialize FLAGS_num_particles loaded l a st) in *.
  assert (Hgate : odom_gate odom_loc st0 = false).
  { unfold odom_gate. rewrite Hinit. reflexivity. }
  assert (Hst : ObserveOdometry odom_loc odom_angle st0
                = set_odom_initialized
                    (ResetOdomVariables odom_loc odom_angle st0) true).
  { unfold ObserveOdometry. rewrite Hgate. reflexivity. }
  rewrite Hst. unfold ObserveLaser.
  rewrite ObserveLaser_traced_gate_closed.
  - eexists. repeat split.
  - apply motion_gate_zero_displacement32. reflexivity.
Qed.

Lemma sub_diag_finite32 (x : spec_float) :
  is_finite32 x = true -> SFsub prec32 emax32 x x = S754_zero false.
Proof.
  destruct x as [s|s| |s m e]; try discriminate; intros _.
  - destruct s; reflexivity.
  - unfold SFsub. rewrite Z.sub_diag. reflexivity.
Qed.

(** *** Map2BaseLink *)

(** X17.  In binary32, for every finite location and every angle at which
    [cos] and [sin] return finite values, [Map2BaseLink] sends the location
    [loc] itself to (-0.2, 0), up to the sign of the zero: the origin of
    the coordinates it returns is 0.2 m ahead of [loc], at the laser. *)
Theorem Map2BaseLink_puts_loc_behind_origin
    (l : Vector2f spec_float) (a : spec_float) :
  is_finite32 (vx l) = true ->
  is_finite32 (vy l) = true ->
  is_finite32 (m_cos L (SFopp a)) = true ->
  is_finite32 (m_sin L (SFopp a)) = true ->
  vx (Map2BaseLink l l a) = b32_lit (-0.2)
  /\ is_zero32 (vy (Map2BaseLink l l a)) = true.
Proof.
  intros Hx Hy Hc Hs.
  unfold Map2BaseLink, rotate, vsub, zero.
  cbn [vx vy sub add mul opp lit fcos fsin S32 binary32_scalar].
  rewrite (sub_diag_finite32 _ Hx), (sub_diag_finite32 _ Hy).
  destruct (m_cos L (SFopp a)) as [sc|sc| |sc mc ec]; try discriminate Hc;
    destruct (m_sin L (SFopp a)) as [ss|ss| |ss ms es]; try discriminate Hs;
    destruct sc, ss; split; vm_compute; reflexivity.
Qed.

(** *** Weights that underflow *)

Lemma ltb_add_zero32 (sp acc w : spec_float) :
  is_zero32 w = true ->
  SFltb sp (SFadd prec32 emax32 acc w) = SFltb sp acc.
Proof.
  destruct w as [sw|sw| |sw mw ew]; try discriminate. intros _.
  destruct acc as [sa|sa| |sa ma ea]; try reflexivity.
  destruct sa, sw, sp as [s|s| |s m e]; reflexivity.
Qed.

Lemma resample_loop_skips_zero_weights (fuel : nat)
    (max_log d : spec_float) :
  forall (ps : list (Particle spec_float)) (acc sp : spec_float)
         (out out' : list (Particle spec_float)),
    resample_loop fuel (breakpoints_from max_log ps acc)
      (map (normalize_particle max_log) ps) sp d out = Some out' ->
    SFltb sp acc = false ->
    Forall (fun q => is_zero32 (m_exp L (log_weight q)) = false) out ->
    Forall (fun q => is_zero32 (m_exp L (log_weight q)) = false) out'.
Proof.
  induction ps as [|p ps IH]; intros acc sp out out' H Hacc Hout;
    cbn [breakpoints_from map resample_loop] in H.
  - injection H as <-. exact Hout.
  - destruct (emit_copies _ _ _ _ _ _) as [[out1 sp1]|] eqn:He;
      [|discriminate].
    apply (@emit_copies_Forall _ _
             (fun q => is_zero32 (m_exp L (log_weight q)) = false)) in He.
    + destruct He as [Hout1 Hsp1]. exact (IH _ _ _ _ H Hsp1 Hout1).
    + cbn [normalize_particle set_log_weight log_weight add sub fexp ltb S32
           binary32_scalar].
      intro Hlt.
      destruct (is_zero32 (m_exp L (SFsub prec32 emax32 (log_weight p)
                                      max_log))) eqn:Hz; [|reflexivity].
      rewrite ltb_add_zero32 in Hlt by exact Hz. congruence.
    + exact Hout.
Qed.

(** X19.  In binary32, when [Resample] runs its second loop with a draw
    that is not negative, no particle whose normalized weight
    [exp(log_weight - max_log_particle_weight_)] is zero is emitted: adding
    a zero leaves the breakpoint where the sample point already is. *)
Theorem Resample_never_emits_underflowed_weight
    (fuel : nat) (st st' : FilterState E) :
  length (particles_ st) = FLAGS_num_particles ->
  particles_ st <> [] ->
  odom_initialized_ st = true ->
  eqb (division_size_of FLAGS_num_particles st) zero = false ->
  ltb (sample_point_of FLAGS_num_particles st) zero = false ->
  Resample FLAGS_num_particles fuel st = Some st' ->
  forall q,
    In q (particles_ st') -> is_zero32 (m_exp L (log_weight q)) = false.
Proof.
  intros Hlen Hne Hinit Hd Hu H.
  unfold Resample in H.
  destruct (particles_ st) as [|p ps] eqn:Hps; [contradiction Hne; reflexivity|].
  rewrite Hinit in H. cbn [negb] in H.
  assert (Hnw :
    normalize_weights (max_log_particle_weight_ st) FLAGS_num_particles
      (p :: ps) zero
    = Some (map (normalize_particle (max_log_particle_weight_ st)) (p :: ps),
            breakpoints_from (max_log_particle_weight_ st) (p :: ps) zero,
            fold_left
              (fun a q =>
                 add a
                   (fexp (sub (log_weight q) (max_log_particle_weight_ st))))
              (p :: ps) zero))
    by (rewrite <- Hlen; apply normalize_weights_exact).
  rewrite Hnw in H. clear Hnw.
  unfold sample_point_of, division_size_of, normalized_sum_of in Hd, Hu.
  rewrite Hps in Hd, Hu.
  cbn [rng_ set_particles] in H.
  destruct (UniformRandom zero _ (rng_ st)) as [u rng'] eqn:Hdraw.
  cbn [fst] in Hu.
  rewrite Hd in H.
  destruct (resample_loop _ _ _ _ _ _) as [new|] eqn:Hloop; [|discriminate].
  injection H as <-. cbn [particles_ set_particles].
  apply Forall_forall.
  apply resample_loop_skips_zero_weights in Hloop;
    [exact Hloop | exact Hu | constructor].
Qed.

End Binary32More.

(** ** Further properties in exact arithmetic *)

Section ExactMore.

Variable sqrtQ : Q -> Q.
Variable L : Libm Q.
Variable E : Externals Q.
Variable FLAGS_num_particles : nat.

Let SQ : Scalar Q := exact_scalar sqrtQ L.
#[local] Existing Instance SQ.

(** *** The sensor model *)

Lemma ray_log_error_nonpos (st : FilterState E) (measured predicted : Q) :
  (0 < var_obs_ st)%Q ->
  (ray_log_error st measured predicted <= 0)%Q.
Proof.
  intro Hvar. unfold ray_log_error, Sq.
  cbn [div opp mul SQ exact_scalar].
  apply Qle_shift_div_r; [exact Hvar|].
  set (c := clamp_range_diff st _).
  assert (0 <= c * c)%Q by nra. lra.
Qed.

Lemma weight_loop_nonincreasing (st : FilterState E)
    (ranges trimmed : list Q) (cloud : list (Vector2f Q))
    (lidar_loc : Vector2f Q) (range_min range_max : Q) :
  (0 < var_obs_ st)%Q ->
  forall (idx : list nat) (acc r : Q),
    weight_loop st ranges trimmed cloud lidar_loc range_min range_max idx acc
    = Some r ->
    (r <= acc)%Q.
Proof.
  intro Hvar. induction idx as [|i idx IH]; intros acc r H;
    cbn [weight_loop] in H.
  - injection H as <-. lra.
  - destruct (nth_error cloud i) as [pt|]; [|discriminate].
    destruct (nth_error ranges i) as [ri|]; [|discriminate].
    destruct (ray_dropped _ _ _ _).
    + exact (IH _ _ H).
    + destruct (nth_error trimmed i) as [ti|]; [|discriminate].
      apply IH in H. cbn [add SQ exact_scalar] in H.
      pose proof (ray_log_error_nonpos st ti
                    (norm (vsub pt lidar_loc)) Hvar).
      lra.
Qed.

(** X14.  In exact arithmetic with [var_obs_ > 0], [Update] never raises a
    log-weight: every ray adds a term [-Sq(range_diff)/var_obs_ <= 0]. *)
Theorem Update_never_raises_log_weight
    (st : FilterState E) (ranges : list Q)
    (range_min range_max angle_min angle_max : Q) (p p' : Particle Q) :
  (0 < var_obs_ st)%Q ->
  Update st ranges range_min range_max angle_min angle_max p = Some p' ->
  (log_weight p' <= log_weight p)%Q.
Proof.
  intros Hvar H. unfold Update in H.
  destruct (negb (odom_initialized_ st)).
  { injection H as <-. lra. }
  destruct (length (GetPredictedPointCloud _ _ _ _ _ _ _ _)); [discriminate|].
  destruct (trim_ranges _ _ _) as [trimmed|]; [|discriminate].
  destruct (weight_loop _ _ _ _ _ _ _ _ _) as [s|] eqn:Hs; [|discriminate].
  injection H as <-.
  apply weight_loop_nonincreasing in Hs; [|exact Hvar].
  cbn [log_weight set_log_weight add SQ exact_scalar].
  unfold zero in Hs. cbn [lit SQ exact_scalar] in Hs. lra.
Qed.

(** X15.  In exact arithmetic the loop of [ObserveLaser] over the
    particles returns the maximum of the starting value and the updated
    log-weights: the value is not below the starting value nor below any
    updated log-weight, and it is the starting value or the log-weight of
    an updated particle. *)
Theorem update_all_records_maximum
    (st : FilterState E) (ranges : list Q)
    (range_min range_max angle_min angle_max : Q) :
  forall (ps ps' : list (Particle Q)) (m0 m : Q),
    update_all st ranges range_min range_max angle_min angle_max ps m0
    = Some (ps', m) ->
    (m0 <= m)%Q
    /\ Forall (fun q => (log_weight q <= m)%Q) ps'
    /\ (m = m0 \/ exists q, In q ps' /\ m = log_weight q).
Proof.
  induction ps as [|p ps IH]; intros ps' m0 m H; cbn [update_all] in H.
  - injection H as <- <-. repeat split; [lra | constructor | left; reflexivity].
  - destruct (Update st ranges range_min range_max angle_min angle_max p)
      as [p'|]; [|discriminate].
    destruct (update_all _ _ _ _ _ _ ps _) as [[ps'' m'']|] eqn:Hr;
      [|discriminate].
    injection H as <- <-.
    apply IH in Hr. destruct Hr as (Hle & Hall & Hatt).
    cbn [ltb SQ exact_scalar] in *.
    destruct (Qltb m0 (log_weight p')) eqn:Hcmp.
    + apply Qltb_lt in Hcmp. repeat split.
      * lra.
      * constructor; [exact Hle | exact Hall].
      * right. destruct Hatt as [-> | (q & Hq & ->)].
        -- exists p'. split; [left; reflexivity | reflexivity].
        -- exists q. split; [right; exact Hq | reflexivity].
    + apply Qltb_ge in Hcmp. repeat split.
      * exact Hle.
      * constructor; [lra | exact Hall].
      * destruct Hatt as [-> | (q & Hq & ->)]; [left; reflexivity|].
        right. exists q. split; [right; exact Hq | reflexivity].
Qed.

(** *** The predicted scan *)

Lemma closest_intersection_nearest (l : Vector2f Q) (ray_line : line2f Q) :
  forall (ls : list (line2f Q)) (dist_min : Q) (pt_min : Vector2f Q)
         (d : Q) (pt : Vector2f Q),
    closest_intersection l ray_line ls dist_min pt_min = (d, pt) ->
    (forall map_line h,
        In map_line ls -> Intersection map_line ray_line = Some h ->
        (d <= norm (vsub h l))%Q)
    /\ ((d = dist_min /\ pt = pt_min)
        \/ ((d < dist_min)%Q
            /\ d = norm (vsub pt l)
            /\ exists map_line,
                 In map_line ls
                 /\ Intersection map_line ray_line = Some pt)).
Proof.
  induction ls as [|ml ls IH]; intros dist_min pt_min d pt H;
    cbn [closest_intersection] in H.
  - injection H as <- <-. split; [intros ? ? []|]. left. split; reflexivity.
  - destruct (Intersection ml ray_line) as [h0|] eqn:Hi.
    + cbn [ltb SQ exact_scalar] in H.
      destruct (Qltb (norm (vsub h0 l)) dist_min) eqn:Hcmp.
      * apply Qltb_lt in Hcmp. apply IH in H. destruct H as [Hall Hsel].
        assert (Hd : (d <= norm (vsub h0 l))%Q).
        { destruct Hsel as [[-> _] | [Hlt _]]; lra. }
        split.
        -- intros map_line h [<- | Hin] Hh.
           ++ rewrite Hi in Hh. injection Hh as <-. exact Hd.
           ++ exact (Hall _ _ Hin Hh).
        -- right. split; [lra|].
           destruct Hsel as [[-> ->] | (_ & Hn & ml' & Hin & Hh)].
           ++ split; [reflexivity|]. exists ml.
              split; [left; reflexivity | exact Hi].
           ++ split; [exact Hn|]. exists ml'.
              split; [right; exact Hin | exact Hh].
      * apply Qltb_ge in Hcmp. apply IH in H. destruct H as [Hall Hsel].
        assert (Hd : (d <= dist_min)%Q).
        { destruct Hsel as [[-> _] | [Hlt _]]; lra. }
        split.
        -- intros map_line h [<- | Hin] Hh.
           ++ rewrite Hi in Hh. injection Hh as <-. lra.
           ++ exact (Hall _ _ Hin Hh).
        -- destruct Hsel as [Hsame | (Hlt & Hn & ml' & Hin & Hh)].
           ++ left. exact Hsame.
           ++ right. split; [exact Hlt|]. split; [exact Hn|].
              exists ml'. split; [right; exact Hin | exact Hh].
    + apply IH in H. destruct H as [Hall Hsel]. split.
      * intros map_line h [<- | Hin] Hh.
        -- rewrite Hi in Hh. discriminate.
        -- exact (Hall _ _ Hin Hh).
      * destruct Hsel as [Hsame | (Hlt & Hn & ml' & Hin & Hh)].
        -- left. exact Hsame.
        -- right. split; [exact Hlt|]. split; [exact Hn|].
           exists ml'. split; [right; exact Hin | exact Hh].
Qed.

(** X16.  In exact arithmetic, ray [i] of the predicted scan is either the
    end of the ray, and then no map line meets the ray nearer than
    [range_max] to the particle location [loc], or a point where a map line
    meets the ray, nearer than [range_max] to [loc] and at least as near to
    [loc] as every other such point.  Distances are taken from [loc], not
    from the laser. *)
Theorem GetPredictedPointCloud_takes_hit_nearest_to_loc
    (lines : list (line2f Q)) (l : Vector2f Q) (a : Q) (num_ranges : nat)
    (range_min range_max angle_min angle_max : Q) (i : nat) :
  (i < num_ranges / 10)%nat ->
  exists pt,
    nth_error
      (GetPredictedPointCloud lines l a num_ranges range_min range_max
         angle_min angle_max) i = Some pt
    /\ ((pt = ray_point (lidar_offset l a)
                (ray_angle_of a i num_ranges angle_min angle_max) range_max
         /\ forall map_line h,
              In map_line lines ->
              Intersection map_line
                (ray_line_of (lidar_offset l a)
                   (ray_angle_of a i num_ranges angle_min angle_max)
                   range_min range_max) = Some h ->
              (range_max <= norm (vsub h l))%Q)
        \/ ((norm (vsub pt l) < range_max)%Q
            /\ (exists map_line,
                  In map_line lines
                  /\ Intersection map_line
                       (ray_line_of (lidar_offset l a)
                          (ray_angle_of a i num_ranges angle_min angle_max)
                          range_min range_max) = Some pt)
            /\ forall map_line h,
                 In map_line lines ->
                 Intersection map_line
                   (ray_line_of (lidar_offset l a)
                      (ray_angle_of a i num_ranges angle_min angle_max)
                      range_min range_max) = Some h ->
                 (norm (vsub pt l) <= norm (vsub h l))%Q)).
Proof.
  intro Hi. unfold GetPredictedPointCloud.
  rewrite nth_error_map, (nth_error_nth' _ 0%nat)
    by (rewrite length_seq; exact Hi).
  rewrite seq_nth by exact Hi. cbn [option_map Nat.add].
  eexists. split; [reflexivity|].
  unfold predicted_point.
  destruct (closest_intersection _ _ _ _ _) as [d pt] eqn:Hc.
  apply closest_intersection_nearest in Hc.
  destruct Hc as [Hall [[-> ->] | (Hlt & -> & Hhit)]]; cbn [snd].
  - left. split; [reflexivity | exact Hall].
  - right. split; [exact Hlt|]. split; [exact Hhit | exact Hall].
Qed.

(** *** The motion model *)

Lemma propagate_noise_free (d : Vector2f Q) (prev_angle angle_diff : Q) :
  (forall (sigma : Q) (r : Random), (fst (Gaussian zero sigma r) == 0)%Q) ->
  forall (ps : list (Particle Q)) (rng : Random),
    Forall2
      (fun q p =>
         (vx (loc q)
          == vx (loc p) + vx (rotate (AngleDiff (angle p) prev_angle) d))%Q
         /\ (vy (loc q)
             == vy (loc p) + vy (rotate (AngleDiff (angle p) prev_angle) d))%Q
         /\ (angle q == angle p + angle_diff)%Q
         /\ log_weight q = log_weight p)
      (fst (propagate d prev_angle angle_diff ps rng)) ps.
Proof.
  intro Hnoise. induction ps as [|p ps IH]; intro rng; cbn [propagate].
  - constructor.
  - unfold UpdateParticleLocation.
    match goal with
    | |- context [Gaussian zero ?s rng] =>
        pose proof (Hnoise s rng) as H1;
        destruct (Gaussian zero s rng) as [nx r1]
    end.
    match goal with
    | |- context [Gaussian zero ?s r1] =>
        pose proof (Hnoise s r1) as H2;
        destruct (Gaussian zero s r1) as [ny r2]
    end.
    match goal with
    | |- context [Gaussian zero ?s r2] =>
        pose proof (Hnoise s r2) as H3;
        destruct (Gaussian zero s r2) as [nr r3]
    end.
    specialize (IH r3).
    destruct (propagate d prev_angle angle_diff ps r3) as [ps' r4].
    cbn [fst] in *. constructor; [|exact IH].
    cbn [loc angle log_weight vx vy vadd add SQ exact_scalar].
    repeat split.
    + rewrite H1. ring.
    + rewrite H2. ring.
    + rewrite H3. ring.
Qed.

(** X22.  In exact arithmetic, when the odometry gate is open and the
    Gaussian draws of zero mean return zero, [ObserveOdometry] moves each
    particle by the odometry translation rotated by
    [AngleDiff(particle.angle, prev_odom_angle_)] and turns it by
    [AngleDiff(odom_angle, prev_odom_angle_)]; the log-weight stays. *)
Theorem ObserveOdometry_noise_free_motion
    (odom_loc : Vector2f Q) (odom_angle : Q) (st : FilterState E) :
  odom_gate odom_loc st = true ->
  (forall (sigma : Q) (r : Random), (fst (Gaussian zero sigma r) == 0)%Q) ->
  Forall2
    (fun q p =>
       (vx (loc q)
        == vx (loc p)
           + vx (rotate (AngleDiff (angle p) (prev_odom_angle_ st))
                   (vsub odom_loc (prev_odom_loc_ st))))%Q
       /\ (vy (loc q)
           == vy (loc p)
              + vy (rotate (AngleDiff (angle p) (prev_odom_angle_ st))
                      (vsub odom_loc (prev_odom_loc_ st))))%Q
       /\ (angle q
           == angle p + AngleDiff odom_angle (prev_odom_angle_ st))%Q
       /\ log_weight q = log_weight p)
    (particles_ (ObserveOdometry odom_loc odom_angle st)) (particles_ st).
Proof.
  intros Hgate Hnoise. unfold ObserveOdometry. rewrite Hgate.
  pose proof (propagate_noise_free (vsub odom_loc (prev_odom_loc_ st))
                (prev_odom_angle_ st)
                (AngleDiff odom_angle (prev_odom_angle_ st)) Hnoise
                (particles_ st) (rng_ st)) as H.
  destruct (propagate _ _ _ _ _) as [ps rng]. exact H.
Qed.

End ExactMore.

(** ** The filter run on concrete inputs *)

#[local] Existing Instance exact_model.
#[local] Existing Instance binary32_model.
#[local] Existing Instance binary32_infinity.

Lemma Qsquare_nonneg (a : Q) : (0 <= a * a)%Q.
Proof. nra. Qed.

Lemma expQ_model_nonneg (x : Q) : (0 <= m_exp libmQ_model x)%Q.
Proof.
  cbn [m_exp libmQ_model]. unfold expQ_model. cbv zeta.
  rewrite Qred_correct. apply Qsquare_nonneg.
Qed.

(** C1, on binary32: [Resample] does not always leave the configured
    number of particles.

    Scenario 2 of the specification (N = 50, one particle of weight 1, the
    others of weight [exp(-1000) = 0]): S = 1 and S/N rounds to
    0.0199999996, below 1/50.  With the draw u = 0, fifty additions
    [sample_point += division_size] reach only 0.99999958, still below the
    breakpoint 1, and the [while] loop emits a 51st copy.

    Fifty particles of equal weight: S = 50 and S/N = 1.  With the draw
    u = 0.99999994 the first addition rounds 1.99999994 to 2, the
    breakpoint 2 of the second particle is not above the sample point, the
    second particle is never emitted, and 49 particles are left; the next
    [Resample] then reads [particles_[49]] past the end.

    Both draws lie in [[0, S/N)].  Of libm only [exp(0) = 1] and the
    underflow of [exp(-1000)] to 0 are used. *)
Theorem Resample_binary32_count_is_not_N :
  (length (particles_ one_heavy32) = 50%nat
   /\ normalized_sum_of (max_log_particle_weight_ one_heavy32)
        (particles_ one_heavy32) = b32_lit 1
   /\ division_size_of 50 one_heavy32 = S754_finite false 10737418 (-29)
   /\ sample_point_of 50 one_heavy32 = S754_zero false
   /\ SFltb (S754_zero false) (division_size_of 50 one_heavy32) = true
   /\ SFltb
        (Nat.iter 50
           (fun sample_point =>
              SFadd prec32 emax32 sample_point
                (division_size_of 50 one_heavy32))
           (S754_zero false))
        (b32_lit 1) = true
   /\ option_map (fun st => length (particles_ st))
        (Resample 50 60 one_heavy32)
      = Some 51%nat)
  /\ (length (particles_ fifty_equal32) = 50%nat
      /\ normalized_sum_of (max_log_particle_weight_ fifty_equal32)
           (particles_ fifty_equal32) = b32_lit 50
      /\ division_size_of 50 fifty_equal32 = b32_lit 1
      /\ sample_point_of 50 fifty_equal32 = below_one32
      /\ SFleb (b32_lit 0) below_one32 = true
      /\ SFltb below_one32 (b32_lit 1) = true
      /\ SFadd prec32 emax32 below_one32 (b32_lit 1) = b32_lit 2
      /\ option_map (fun st => length (particles_ st))
           (Resample 50 60 fifty_equal32)
         = Some 49%nat
      /\ (do st' <- Resample 50 60 fifty_equal32; Resample 50 60 st')
         = None).
Proof. repeat split; vm_compute; reflexivity. Qed.

(** [Resample_exact_emits_N] at three particles with log-weights 0, -1
    and -2 and the draw u = S/6. *)
Lemma Resample_exact_emits_N_witness :
  (0 < normalized_sum_of
         (max_log_particle_weight_ (filterQ (1#2) three_particlesQ []))
         (particles_ (filterQ (1#2) three_particlesQ [])))%Q
  /\ (0 <= sample_point_of 3 (filterQ (1#2) three_particlesQ []))%Q
  /\ (sample_point_of 3 (filterQ (1#2) three_particlesQ [])
      < division_size_of 3 (filterQ (1#2) three_particlesQ []))%Q
  /\ exists st',
       Resample 3 10 (filterQ (1#2) three_particlesQ []) = Some st'
       /\ length (particles_ st') = 3%nat.
Proof.
  assert (H3 :
    (0 < normalized_sum_of
           (max_log_particle_weight_ (filterQ (1#2) three_particlesQ []))
           (particles_ (filterQ (1#2) three_particlesQ [])))%Q)
    by (vm_compute; reflexivity).
  assert (H4 :
    (0 <= sample_point_of 3 (filterQ (1#2) three_particlesQ []))%Q)
    by (vm_compute; discriminate).
  assert (H5 :
    (sample_point_of 3 (filterQ (1#2) three_particlesQ [])
     < division_size_of 3 (filterQ (1#2) three_particlesQ []))%Q)
    by (vm_compute; reflexivity).
  repeat (split; [assumption|]).
  apply (Resample_exact_emits_N (sqrtQ := sqrtQ_model) (L := libmQ_model)
           expQ_model_nonneg (E := EQ (1#2)) (FLAGS_num_particles := 3)
           (fuel := 10) (st := filterQ (1#2) three_particlesQ []));
    [reflexivity | lia | exact H3 | exact H4 | exact H5].
Defined.

(** C2.  Seven gated updates from counter zero: the fifth (index 4) does
    not reach [Resample]; only the seventh does. *)
Lemma ObserveLaser_fifth_gated_call_witness :
  run_flags 2 seven_updates two_particles32
  = Some [false; false; false; false; false; false; true]
  /\ updates_since_last_resample_ two_particles32 = 0%Z
  /\ false = (4 =? 6)%nat.
Proof.
  assert (H :
    run_flags 2 seven_updates two_particles32
    = Some [false; false; false; false; false; false; true])
    by (vm_compute; reflexivity).
  split; [exact H|]. split; [reflexivity|].
  apply (ObserveLaser_first_resample_on_seventh_gated_call 2 seven_updates
           two_particles32
           (tr := [false; false; false; false; false; false; true])
           (k := 4) H);
    [reflexivity | reflexivity | lia].
Defined.

(** C3.  A scan of twenty ranges gives M = 2 rays with stride 10.  For ray
    1 the lockstep measurement is [ranges[10] = 1], inside the usable band,
    but the test of the loop reads [ranges[1] = 0] and drops the ray.
    [Update] therefore adds -0.25 (ray 0 alone); with the test on the
    lockstep measurement both rays are kept and the sum is -0.5.  The same
    happens in binary32. *)
Theorem Update_drop_test_reads_unsampled_range :
  nth 1 scan20 0%Q = 0%Q
  /\ measured_lockstep scan20 1 = 1%Q
  /\ ray_kept (filterQ 0 [originQ] []) scan20 0.1%Q 2%Q 0%Q 0%Q originQ 1
     = false
  /\ ray_kept_lockstep (filterQ 0 [originQ] []) scan20 0.1%Q 2%Q 0%Q 0%Q
       originQ 1
     = true
  /\ (exists particle',
        Update (filterQ 0 [originQ] []) scan20 0.1%Q 2%Q 0%Q 0%Q originQ
        = Some particle'
        /\ (log_weight particle' == -(1#4))%Q)
  /\ (sum_list
        (map (ray_contribution (filterQ 0 [originQ] []) scan20
                0.1%Q 2%Q 0%Q 0%Q originQ)
             (filter (ray_kept_lockstep (filterQ 0 [originQ] []) scan20
                        0.1%Q 2%Q 0%Q 0%Q originQ)
                     (seq 0 (num_rays scan20))))
      == -(1#2))%Q
  /\ option_map (@log_weight spec_float)
       (Update (filter32 (b32_lit 0) [origin32] [] true (vec32 0 0))
          scan20_32 (b32_lit 0.1) (b32_lit 2) (b32_lit 0) (b32_lit 0)
          origin32)
     = Some (b32_lit (-0.25)).
Proof.
  repeat split; try (vm_compute; reflexivity).
  eexists. split; vm_compute; reflexivity.
Qed.

(** C4.  A particle at the origin looks along x; the laser is at (0.2, 0),
    [range_min = 0.1], [range_max = 1], and a wall crosses the ray at
    x = 1.1.  The ray meets the wall at (1.1, 0), 0.9 m from the laser and
    so inside (range_min, range_max).  The loop measures the hit from the
    particle's location instead: 1.1 m is not below the initial minimum
    [range_max], the hit is discarded, and the predicted point is the end
    of the ray (1.2, 0), with predicted range 1 instead of 0.9.  The same
    happens in binary32. *)
Theorem GetPredictedPointCloud_discards_hit_within_range :
  exists hit scan_point,
    Intersection (Externals := EQ 0) wallQ
      (ray_line_of (lidar_offset (loc originQ) (angle originQ))
         0%Q 0.1%Q 1%Q)
    = Some hit
    /\ (vx hit == 1.1 /\ vy hit == 0)%Q
    /\ (norm (vsub hit (lidar_offset (loc originQ) (angle originQ)))
        == 0.9)%Q
    /\ (norm (vsub hit (loc originQ)) == 1.1)%Q
    /\ GetPredictedPointCloud (E := EQ 0) [wallQ] (loc originQ)
         (angle originQ) 10 0.1%Q 1%Q 0%Q 0%Q
       = [scan_point]
    /\ (vx scan_point == 1.2 /\ vy scan_point == 0)%Q
    /\ (predicted_range_of (filterQ 0 [originQ] [wallQ]) (repeat 0.5%Q 10)
          0.1%Q 1%Q 0%Q 0%Q originQ 0
        == 1)%Q
    /\ Intersection (Externals := E32 (b32_lit 0)) wall11_32
         (ray_line_of (lidar_offset (loc origin32) (angle origin32))
            (b32_lit 0) (b32_lit 0.1) (b32_lit 1))
       = Some (vec32 1.1 0)
    /\ GetPredictedPointCloud (E := E32 (b32_lit 0)) [wall11_32]
         (loc origin32) (angle origin32) 10 (b32_lit 0.1) (b32_lit 1)
         (b32_lit 0) (b32_lit 0)
       = [vec32 1.2 0].
Proof.
  eexists. eexists.
  split; [vm_compute; reflexivity|].
  split; [split; vm_compute; reflexivity|].
  split; [vm_compute; reflexivity|].
  split; [vm_compute; reflexivity|].
  split; [vm_compute; reflexivity|].
  split; [split; vm_compute; reflexivity|].
  split; [vm_compute; reflexivity|].
  split; vm_compute; reflexivity.
Qed.

(** C5.  A filter that has not moved since its last update: the distance
    is 0 and the particles stay. *)
Lemma ObserveLaser_outside_band_witness :
  ltb (lit 0.1) (dist_since_last_update two_particles32)
  && ltb (dist_since_last_update two_particles32) (lit 1.0) = false
  /\ exists st',
       ObserveLaser 2 10 scan10_32 (b32_lit 0.1) (b32_lit 10) (b32_lit 0)
         (b32_lit 0) two_particles32 = Some st'
       /\ particles_ st' = particles_ two_particles32.
Proof.
  assert (H :
    ltb (lit 0.1) (dist_since_last_update two_particles32)
    && ltb (dist_since_last_update two_particles32) (lit 1.0) = false)
    by (vm_compute; reflexivity).
  split; [exact H|].
  exact (ObserveLaser_outside_band_keeps_particles 2 10 scan10_32
           (b32_lit 0.1) (b32_lit 10) (b32_lit 0) (b32_lit 0)
           two_particles32 H).
Defined.

(** C6.  An odometry message 5 m from the previous one (scenario 6 of the
    specification). *)
Lemma ObserveOdometry_rebaselines_witness :
  ltb (lit 1.0) (odom_translation (vec32 5 0) two_particles32) = true
  /\ particles_ (ObserveOdometry (vec32 5 0) (b32_lit 0.3) two_particles32)
     = particles_ two_particles32
  /\ prev_odom_loc_
       (ObserveOdometry (vec32 5 0) (b32_lit 0.3) two_particles32)
     = vec32 5 0
  /\ prev_odom_angle_
       (ObserveOdometry (vec32 5 0) (b32_lit 0.3) two_particles32)
     = b32_lit 0.3.
Proof.
  assert (H :
    ltb (lit 1.0) (odom_translation (vec32 5 0) two_particles32) = true)
    by (vm_compute; reflexivity).
  split; [exact H|].
  exact (ObserveOdometry_rebaselines_without_propagating
           (SC := binary32_model) SFltb_asym (vec32 5 0) (b32_lit 0.3)
           two_particles32 (or_intror H)).
Defined.

(** C7.  Two rays look along x at a wall at x = 1.5; the predicted range is
    1.3 for both and the lockstep measurements [ranges[0] = ranges[10] = 1]
    are in the usable band, so both rays pass the test of the
    specification and the increment it gives is 2 * (-0.3^2) = -0.18.
    [Update] adds -0.09: for ray 1 the loop tests [ranges[1] = 0] and
    drops the ray.  In binary32 the two values are -0.08999997 and twice
    that. *)
Theorem Update_increment_misses_ray_in_usable_band :
  (predicted_range_of (filterQ 0 [originQ] [wall15Q]) scan20 0.1%Q 2%Q 0%Q
     0%Q originQ 0 == 1.3)%Q
  /\ (predicted_range_of (filterQ 0 [originQ] [wall15Q]) scan20 0.1%Q 2%Q
        0%Q 0%Q originQ 1 == 1.3)%Q
  /\ measured_lockstep scan20 0 = 1%Q
  /\ measured_lockstep scan20 1 = 1%Q
  /\ filter (in_usable_band (filterQ 0 [originQ] [wall15Q]) scan20 0.1%Q
               2%Q 0%Q 0%Q originQ)
       (seq 0 (num_rays scan20))
     = [0; 1]%nat
  /\ (claimed_increment (filterQ 0 [originQ] [wall15Q]) scan20 0.1%Q 2%Q
        0%Q 0%Q originQ == -(18#100))%Q
  /\ (exists particle',
        Update (filterQ 0 [originQ] [wall15Q]) scan20 0.1%Q 2%Q 0%Q 0%Q
          originQ = Some particle'
        /\ (log_weight particle' - log_weight originQ == -(9#100))%Q)
  /\ ray_dropped 0.1%Q 2%Q
       (predicted_range_of (filterQ 0 [originQ] [wall15Q]) scan20 0.1%Q 2%Q
          0%Q 0%Q originQ 1)
       (nth 1 scan20 0%Q)
     = true
  /\ option_map (@log_weight spec_float)
       (Update (filter32 (b32_lit 0) [origin32] [wall15_32] true (vec32 0 0))
          scan20_32 (b32_lit 0.1) (b32_lit 2) (b32_lit 0) (b32_lit 0)
          origin32)
     = Some (S754_finite true 12079592 (-27))
  /\ claimed_increment
       (filter32 (b32_lit 0) [origin32] [wall15_32] true (vec32 0 0))
       scan20_32 (b32_lit 0.1) (b32_lit 2) (b32_lit 0) (b32_lit 0) origin32
     = S754_finite true 12079592 (-26).
Proof.
  repeat split; try (vm_compute; reflexivity).
  eexists. split; vm_compute; reflexivity.
Qed.

(** C8.  [GetLocation] on a filter without particles, in binary32: the
    three sums stay zero, both quotients are 0/0, and the pose returned is
    NaN in every component.  The filter as constructed is such a filter. *)
Theorem GetLocation_of_no_particles_is_nan
    (L : Libm spec_float) (E : Externals spec_float) :
  (forall st : FilterState E,
     GetLocation (SC := binary32_scalar L) (set_particles st [])
     = (Vec2 S754_nan S754_nan, S754_nan))
  /\ (forall (rng : Random) (init_offset max_log : spec_float),
        GetLocation (SC := binary32_scalar L)
          (ParticleFilter_new (SC := binary32_scalar L) (E := E) rng
             init_offset max_log)
        = (Vec2 S754_nan S754_nan, S754_nan)).
Proof. split; reflexivity. Qed.


(** C10.  Two particles 1000 below the stored maximum: [exp] underflows to
    zero for both, the total weight is zero, and [Resample] returns with the
    log-weights decremented and one draw made. *)
Lemma Resample_zero_weight_abort_witness :
  eqb (division_size_of 2 two_light32) zero = true
  /\ exists st',
       Resample 2 10 two_light32 = Some st'
       /\ particles_ st'
          = map (normalize_particle (max_log_particle_weight_ two_light32))
                (particles_ two_light32)
       /\ rng_ st' = 1%nat
       /\ length (particles_ st') = 2%nat.
Proof.
  assert (H : eqb (division_size_of 2 two_light32) zero = true)
    by (vm_compute; reflexivity).
  split; [exact H|].
  destruct (Resample_zero_weight_abort_not_atomic (SC := binary32_model)
              (FLAGS_num_particles := 2) 10 two_light32
              ltac:(discriminate) eq_refl eq_refl H)
    as (st' & Hrun & Hps & Hrng & _ & _ & Hlen & _).
  exists st'. repeat split; assumption.
Defined.

(** X2.  The filter that has not moved: after the scan its pose estimate
    is NaN. *)
Lemma GetLocation_after_failed_gate_witness :
  motion_gate two_particles32 = false
  /\ exists st',
       ObserveLaser 2 10 scan10_32 (b32_lit 0.1) (b32_lit 10) (b32_lit 0)
         (b32_lit 0) two_particles32 = Some st'
       /\ GetLocation st' = (Vec2 S754_nan S754_nan, S754_nan).
Proof.
  assert (H : motion_gate two_particles32 = false)
    by (vm_compute; reflexivity).
  split; [exact H|].
  exact (GetLocation_after_failed_gate_is_nan libm32_model eq_refl eq_refl
           2 10 scan10_32 (b32_lit 0.1) (b32_lit 10) (b32_lit 0)
           (b32_lit 0) two_particles32 H).
Defined.

(** ** The further properties on concrete inputs *)

(** X5.  Two particles of equal weight and the draw u = 0.5: [Resample]
    emits both. *)
Lemma Resample_emits_only_input_particles_witness :
  exists st',
    Resample 2 10 two_particles32 = Some st'
    /\ (forall q, In q (particles_ st') ->
          exists p, In p (particles_ two_particles32)
            /\ (q = p
                \/ q = normalize_particle
                         (max_log_particle_weight_ two_particles32) p))
    /\ prev_odom_loc_ st' = prev_odom_loc_ two_particles32
    /\ prev_odom_angle_ st' = prev_odom_angle_ two_particles32
    /\ odom_initialized_ st' = odom_initialized_ two_particles32
    /\ map_ st' = map_ two_particles32
    /\ updates_since_last_resample_ st'
       = updates_since_last_resample_ two_particles32
    /\ last_update_loc_ st' = last_update_loc_ two_particles32.
Proof.
  assert (Hsome :
    option_map (fun _ => tt) (Resample 2 10 two_particles32) = Some tt) by (vm_compute; reflexivity).
  destruct (Resample 2 10 two_particles32) as [st'|] eqn:H;
    [|discriminate Hsome].
  exists st'. split; [reflexivity|].
  exact (@Resample_emits_only_input_particles _ binary32_model _ 2 10
           two_particles32 st' H).
Defined.

(** X6.  Two particles where three are configured. *)
Lemma Resample_with_too_few_particles_witness :
  particles_ two_particles32 <> []
  /\ odom_initialized_ two_particles32 = true
  /\ (length (particles_ two_particles32) < 3)%nat
  /\ Resample 3 10 two_particles32 = None.
Proof.
  assert (H1 : particles_ two_particles32 <> []) by discriminate.
  assert (H3 : (length (particles_ two_particles32) < 3)%nat) by (cbn; lia).
  split; [exact H1|]. split; [reflexivity|]. split; [exact H3|].
  exact (@Resample_with_too_few_particles_reads_past_end _ binary32_model _
           3 10 two_particles32 H1 eq_refl H3).
Defined.

(** X7.  A scan of five ranges before any odometry message. *)
Lemma ObserveLaser_before_odometry_witness :
  odom_initialized_ before_odometry32 = false
  /\ exists st',
       ObserveLaser 2 10 scan5_32 (b32_lit 0.1) (b32_lit 10) (b32_lit 0)
         (b32_lit 0) before_odometry32 = Some st'
       /\ particles_ st' = particles_ before_odometry32
       /\ rng_ st' = rng_ before_odometry32
       /\ odom_initialized_ st' = false.
Proof.
  split; [reflexivity|].
  exact (@ObserveLaser_before_odometry_keeps_particles _ binary32_model _
           binary32_infinity 2 10 scan5_32 (b32_lit 0.1) (b32_lit 10)
           (b32_lit 0) (b32_lit 0) before_odometry32 eq_refl).
Defined.

(** X8.  The same scan after the filter has moved half a metre. *)
Lemma ObserveLaser_short_scan_witness :
  odom_initialized_ moved32 = true
  /\ motion_gate moved32 = true
  /\ particles_ moved32 <> []
  /\ (length scan5_32 < 10)%nat
  /\ ObserveLaser 2 10 scan5_32 (b32_lit 0.1) (b32_lit 10) (b32_lit 0)
       (b32_lit 0) moved32 = None.
Proof.
  assert (H2 : motion_gate moved32 = true) by (vm_compute; reflexivity).
  assert (H3 : particles_ moved32 <> []) by discriminate.
  assert (H4 : (length scan5_32 < 10)%nat) by (cbn; lia).
  split; [reflexivity|]. split; [exact H2|]. split; [exact H3|].
  split; [exact H4|].
  exact (@ObserveLaser_short_scan_divides_by_zero _ binary32_model _
           binary32_infinity 2 10 scan5_32 (b32_lit 0.1) (b32_lit 10)
           (b32_lit 0) (b32_lit 0) moved32 eq_refl H2 H3 H4).
Defined.

(** X9.  A gated update of the two particles in front of the wall. *)
Lemma ObserveLaser_creates_no_pose_witness :
  exists st',
    ObserveLaser 2 10 scan10_32 (b32_lit 0.1) (b32_lit 10) (b32_lit 0)
      (b32_lit 0) moved32 = Some st'
    /\ (forall q, In q (particles_ st') ->
          exists p, In p (particles_ moved32)
            /\ loc q = loc p /\ angle q = angle p)
    /\ prev_odom_loc_ st' = prev_odom_loc_ moved32
    /\ prev_odom_angle_ st' = prev_odom_angle_ moved32
    /\ odom_initialized_ st' = odom_initialized_ moved32
    /\ map_ st' = map_ moved32.
Proof.
  assert (Hsome :
    option_map (fun _ => tt)
      (ObserveLaser 2 10 scan10_32 (b32_lit 0.1) (b32_lit 10)
              (b32_lit 0) (b32_lit 0) moved32)
    = Some tt) by (vm_compute; reflexivity).
  destruct (ObserveLaser 2 10 scan10_32 (b32_lit 0.1) (b32_lit 10)
              (b32_lit 0) (b32_lit 0) moved32)
    as [st'|] eqn:H; [|discriminate Hsome].
  exists st'. split; [reflexivity|].
  exact (@ObserveLaser_creates_no_pose _ binary32_model _ binary32_infinity
           2 10 scan10_32 (b32_lit 0.1) (b32_lit 10) (b32_lit 0)
           (b32_lit 0) moved32 st' H).
Defined.

(** X10.  A session of four requests from counter zero. *)
Lemma updates_since_last_resample_witness :
  exists st',
    serve_all 2 short_session two_particles32 = Some st'
    /\ (0 <= updates_since_last_resample_ two_particles32 <= 6)%Z
    /\ (0 <= updates_since_last_resample_ st' <= 6)%Z.
Proof.
  assert (H0 : (0 <= updates_since_last_resample_ two_particles32 <= 6)%Z)
    by (cbn; lia).
  assert (Hsome :
    option_map (fun _ => tt)
      (serve_all 2 short_session two_particles32)
    = Some tt) by (vm_compute; reflexivity).
  destruct (serve_all 2 short_session two_particles32)
    as [st'|] eqn:H; [|discriminate Hsome].
  exists st'. split; [reflexivity|]. split; [exact H0|].
  exact (@updates_since_last_resample_stays_within_six _ binary32_model _
           binary32_infinity 2 short_session two_particles32 st' H H0).
Defined.

(** X11.  The filter that has not moved since its last update. *)
Lemma ObserveLaser_without_displacement_witness :
  last_update_loc_ two_particles32 = prev_odom_loc_ two_particles32
  /\ exists st',
       ObserveLaser 2 10 scan10_32 (b32_lit 0.1) (b32_lit 10) (b32_lit 0)
         (b32_lit 0) two_particles32 = Some st'
       /\ particles_ st' = particles_ two_particles32
       /\ max_log_particle_weight_ st' = S754_infinity true.
Proof.
  split; [reflexivity|].
  exact (@ObserveLaser_without_displacement_keeps_particles libm32_model _
           2 10 scan10_32 (b32_lit 0.1) (b32_lit 10) (b32_lit 0) (b32_lit 0)
           two_particles32 eq_refl).
Defined.

(** X12.  A gated update followed at once by a scan of five ranges: the
    second call returns, although a gated call on five ranges would divide
    by zero. *)
Lemma ObserveLaser_second_scan_witness :
  exists st1,
    ObserveLaser 2 10 scan10_32 (b32_lit 0.1) (b32_lit 10) (b32_lit 0)
      (b32_lit 0) moved32 = Some st1
    /\ exists st2,
         ObserveLaser 2 10 scan5_32 (b32_lit 0.1) (b32_lit 10) (b32_lit 0)
           (b32_lit 0) st1 = Some st2
         /\ particles_ st2 = particles_ st1
         /\ max_log_particle_weight_ st2 = S754_infinity true.
Proof.
  assert (Hsome :
    option_map (fun _ => tt)
      (ObserveLaser 2 10 scan10_32 (b32_lit 0.1) (b32_lit 10)
              (b32_lit 0) (b32_lit 0) moved32)
    = Some tt) by (vm_compute; reflexivity).
  destruct (ObserveLaser 2 10 scan10_32 (b32_lit 0.1) (b32_lit 10)
              (b32_lit 0) (b32_lit 0) moved32)
    as [st1|] eqn:H; [|discriminate Hsome].
  exists st1. split; [reflexivity|].
  exact (@ObserveLaser_second_scan_keeps_particles libm32_model _ 2 10 10
           scan10_32 scan5_32 (b32_lit 0.1) (b32_lit 10) (b32_lit 0)
           (b32_lit 0) (b32_lit 0.1) (b32_lit 10) (b32_lit 0) (b32_lit 0)
           moved32 st1 H).
Defined.

(** X14.  The scan of twenty ranges at the particle at the origin. *)
Lemma Update_never_raises_log_weight_witness :
  (0 < var_obs_ (filterQ 0 [originQ] []))%Q
  /\ exists particle',
       Update (filterQ 0 [originQ] []) scan20 0.1%Q 2%Q 0%Q 0%Q originQ
       = Some particle'
       /\ (log_weight particle' <= log_weight originQ)%Q.
Proof.
  assert (H1 : (0 < var_obs_ (filterQ 0 [originQ] []))%Q)
    by (vm_compute; reflexivity).
  split; [exact H1|].
  assert (Hsome :
    option_map (fun _ => tt)
      (Update (filterQ 0 [originQ] []) scan20 0.1%Q 2%Q 0%Q 0%Q originQ)
    = Some tt) by (vm_compute; reflexivity).
  destruct (Update (filterQ 0 [originQ] []) scan20 0.1%Q 2%Q 0%Q 0%Q originQ)
    as [particle'|] eqn:H; [|discriminate Hsome].
  exists particle'. split; [reflexivity|].
  exact (@Update_never_raises_log_weight sqrtQ_model libmQ_model _
           (filterQ 0 [originQ] []) scan20 0.1%Q 2%Q 0%Q 0%Q originQ
           particle' H1 H).
Defined.

(** X15.  The loop over three particles, from the starting value -5. *)
Lemma update_all_records_maximum_witness :
  exists ps' m,
    update_all (filterQ 0 three_particlesQ []) scan20 0.1%Q 2%Q 0%Q 0%Q
      three_particlesQ (-5)%Q = Some (ps', m)
    /\ (-5 <= m)%Q
    /\ Forall (fun q => (log_weight q <= m)%Q) ps'
    /\ (m = (-5)%Q \/ exists q, In q ps' /\ m = log_weight q).
Proof.
  assert (Hsome :
    option_map (fun _ => tt)
      (update_all (filterQ 0 three_particlesQ []) scan20 0.1%Q 2%Q 0%Q
         0%Q three_particlesQ (-5)%Q)
    = Some tt) by (vm_compute; reflexivity).
  destruct (update_all (filterQ 0 three_particlesQ []) scan20 0.1%Q 2%Q 0%Q
              0%Q three_particlesQ (-5)%Q)
    as [[ps' m]|] eqn:H; [|discriminate Hsome].
  exists ps', m. split; [reflexivity|].
  exact (@update_all_records_maximum sqrtQ_model libmQ_model _
           (filterQ 0 three_particlesQ []) scan20 0.1%Q 2%Q 0%Q 0%Q
           three_particlesQ ps' (-5)%Q m H).
Defined.

(** X16.  The first ray of a scan of ten ranges from the origin, with the
    wall at x = 1.1 and [range_max = 2]. *)
Lemma GetPredictedPointCloud_takes_hit_witness :
  (0 < 10 / 10)%nat
  /\ exists pt,
       nth_error
         (GetPredictedPointCloud (E := EQ 0) [wallQ] (loc originQ)
            (angle originQ) 10 0.1%Q 2%Q 0%Q 0%Q) 0 = Some pt
       /\ ((pt = ray_point (lidar_offset (loc originQ) (angle originQ))
                   (ray_angle_of (angle originQ) 0 10 0%Q 0%Q) 2%Q
            /\ forall map_line h,
                 In map_line [wallQ] ->
                 Intersection (Externals := EQ 0) map_line
                   (ray_line_of (lidar_offset (loc originQ) (angle originQ))
                      (ray_angle_of (angle originQ) 0 10 0%Q 0%Q)
                      0.1%Q 2%Q) = Some h ->
                 (2 <= norm (vsub h (loc originQ)))%Q)
           \/ ((norm (vsub pt (loc originQ)) < 2)%Q
               /\ (exists map_line,
                     In map_line [wallQ]
                     /\ Intersection (Externals := EQ 0) map_line
                          (ray_line_of
                             (lidar_offset (loc originQ) (angle originQ))
                             (ray_angle_of (angle originQ) 0 10 0%Q 0%Q)
                             0.1%Q 2%Q) = Some pt)
               /\ forall map_line h,
                    In map_line [wallQ] ->
                    Intersection (Externals := EQ 0) map_line
                      (ray_line_of
                         (lidar_offset (loc originQ) (angle originQ))
                         (ray_angle_of (angle originQ) 0 10 0%Q 0%Q)
                         0.1%Q 2%Q) = Some h ->
                    (norm (vsub pt (loc originQ))
                     <= norm (vsub h (loc originQ)))%Q)).
Proof.
  assert (H : (0 < 10 / 10)%nat) by (cbn; lia).
  split; [exact H|].
  exact (@GetPredictedPointCloud_takes_hit_nearest_to_loc sqrtQ_model
           libmQ_model (EQ 0) [wallQ] (loc originQ) (angle originQ) 10
           0.1%Q 2%Q 0%Q 0%Q 0%nat H).
Defined.

(** X22.  An odometry message half a metre along x, with the random source
    whose Gaussian draws are the mean. *)
Lemma ObserveOdometry_noise_free_motion_witness :
  odom_gate (Vec2 0.5 0)%Q (filterQ 0 three_particlesQ []) = true
  /\ (forall (sigma : Q) (r : Random (Externals := EQ 0)),
        (fst (Gaussian (Externals := EQ 0) zero sigma r) == 0)%Q)
  /\ Forall2
       (fun q p =>
          (vx (loc q)
           == vx (loc p)
              + vx (rotate
                      (AngleDiff (Externals := EQ 0) (angle p)
                         (prev_odom_angle_ (filterQ 0 three_particlesQ [])))
                      (vsub (Vec2 0.5 0)%Q
                         (prev_odom_loc_ (filterQ 0 three_particlesQ [])))))%Q
          /\ (vy (loc q)
              == vy (loc p)
                 + vy (rotate
                         (AngleDiff (Externals := EQ 0) (angle p)
                            (prev_odom_angle_
                               (filterQ 0 three_particlesQ [])))
                         (vsub (Vec2 0.5 0)%Q
                            (prev_odom_loc_
                               (filterQ 0 three_particlesQ [])))))%Q
          /\ (angle q
              == angle p
                 + AngleDiff (Externals := EQ 0) 0.1%Q
                     (prev_odom_angle_ (filterQ 0 three_particlesQ [])))%Q
          /\ log_weight q = log_weight p)
       (particles_
          (ObserveOdometry (Vec2 0.5 0)%Q 0.1%Q
             (filterQ 0 three_particlesQ [])))
       (particles_ (filterQ 0 three_particlesQ [])).
Proof.
  assert (H1 :
    odom_gate (Vec2 0.5 0)%Q (filterQ 0 three_particlesQ []) = true)
    by (vm_compute; reflexivity).
  assert (H2 :
    forall (sigma : Q) (r : Random (Externals := EQ 0)),
      (fst (Gaussian (Externals := EQ 0) zero sigma r) == 0)%Q).
  { intros sigma r. cbn. unfold zero. cbn. ring. }
  split; [exact H1|]. split; [exact H2|].
  exact (@ObserveOdometry_noise_free_motion sqrtQ_model libmQ_model (EQ 0)
           (Vec2 0.5 0)%Q 0.1%Q (filterQ 0 three_particlesQ []) H1 H2).
Defined.

(** X17.  A pose at (1, 2) with heading 0.3. *)
Lemma Map2BaseLink_puts_loc_behind_origin_witness :
  is_finite32 (vx (vec32 1 2)) = true
  /\ is_finite32 (vy (vec32 1 2)) = true
  /\ is_finite32 (m_cos libm32_model (SFopp (b32_lit 0.3))) = true
  /\ is_finite32 (m_sin libm32_model (SFopp (b32_lit 0.3))) = true
  /\ vx (Map2BaseLink (vec32 1 2) (vec32 1 2) (b32_lit 0.3))
     = b32_lit (-0.2)
  /\ is_zero32 (vy (Map2BaseLink (vec32 1 2) (vec32 1 2) (b32_lit 0.3)))
     = true.
Proof.
  assert (H3 :
    is_finite32 (m_cos libm32_model (SFopp (b32_lit 0.3))) = true)
    by (vm_compute; reflexivity).
  assert (H4 :
    is_finite32 (m_sin libm32_model (SFopp (b32_lit 0.3))) = true)
    by (vm_compute; reflexivity).
  split; [reflexivity|]. split; [reflexivity|].
  split; [exact H3|]. split; [exact H4|].
  exact (@Map2BaseLink_puts_loc_behind_origin libm32_model (vec32 1 2)
           (b32_lit 0.3) eq_refl eq_refl H3 H4).
Defined.

(** X19.  Three particles of which the second is 1000 below the stored
    maximum, and the draw u = S/6. *)
Lemma Resample_never_emits_underflowed_weight_witness :
  is_zero32
    (normalized_weight underflow32 (particle32 2 0 0 (-1000))) = true
  /\ eqb (division_size_of 3 underflow32) zero = false
  /\ ltb (sample_point_of 3 underflow32) zero = false
  /\ exists st',
       Resample 3 10 underflow32 = Some st'
       /\ forall q,
            In q (particles_ st') ->
            is_zero32 (m_exp libm32_model (log_weight q)) = false.
Proof.
  assert (H0 :
    is_zero32
      (normalized_weight underflow32 (particle32 2 0 0 (-1000))) = true)
    by (vm_compute; reflexivity).
  assert (H1 : eqb (division_size_of 3 underflow32) zero = false)
    by (vm_compute; reflexivity).
  assert (H2 : ltb (sample_point_of 3 underflow32) zero = false)
    by (vm_compute; reflexivity).
  assert (Hsome :
    option_map (fun _ => tt) (Resample 3 10 underflow32) = Some tt)
    by (vm_compute; reflexivity).
  split; [exact H0|]. split; [exact H1|]. split; [exact H2|].
  destruct (Resample 3 10 underflow32) as [st'|] eqn:H;
    [|discriminate Hsome].
  exists st'. split; [reflexivity|].
  exact (@Resample_never_emits_underflowed_weight libm32_model _ 3 10
           underflow32 st' eq_refl ltac:(discriminate) eq_refl H1 H2 H).
Defined.

(** X23.  The scan of twenty ranges at the particle at the origin. *)
Lemma Update_adds_sum_over_rays_witness :
  odom_initialized_ (filterQ 0 [originQ] []) = true
  /\ (10 <= length scan20)%nat
  /\ ltb (d_long_ (filterQ 0 [originQ] []))
       (opp (d_short_ (filterQ 0 [originQ] []))) = false
  /\ exists particle',
       Update (filterQ 0 [originQ] []) scan20 0.1%Q 2%Q 0%Q 0%Q originQ
       = Some particle'
       /\ loc particle' = loc originQ
       /\ angle particle' = angle originQ
       /\ log_weight particle'
          = add (log_weight originQ)
              (sum_list
                 (map (ray_contribution (filterQ 0 [originQ] []) scan20
                         0.1%Q 2%Q 0%Q 0%Q originQ)
                      (filter (passes_loop_test (filterQ 0 [originQ] [])
                                 scan20 0.1%Q 2%Q 0%Q 0%Q originQ)
                              (seq 0 (num_rays scan20))))).
Proof.
  assert (H2 : (10 <= length scan20)%nat) by (cbn; lia).
  assert (H3 :
    ltb (d_long_ (filterQ 0 [originQ] []))
      (opp (d_short_ (filterQ 0 [originQ] []))) = false) by reflexivity.
  split; [reflexivity|]. split; [exact H2|]. split; [exact H3|].
  exact (Update_adds_sum_over_rays_passing_its_test (SC := exact_model)
           Qltb_trans (filterQ 0 [originQ] []) scan20 0.1%Q 2%Q 0%Q 0%Q
           originQ eq_refl H2 H3).
Defined.
